(** * Closed-loop discovery workflow: a shallow embedding

    The development follows [researcher_hub/autora_workflow.py] and
    [researcher_hub/preprocessing.py].  Tables (pandas data frames) are lists
    of rows, Python exceptions are an error type, and every collaborator that
    lives outside the repository (samplers, model fitters, the remote
    execution engine, the JSON decoder) is a field of a record of operations
    over an abstract world state. *)

From Stdlib Require Import List ZArith QArith String Bool Lia.
Import ListNotations.

Local Open Scope Z_scope.
Local Open Scope string_scope.
Local Open Scope list_scope.

(** ** Exceptions and results *)

Inductive exn : Type :=
| KeyError        (* [d[k]] on a dictionary without key [k] *)
| IndexError      (* [l[i]] outside the list *)
| TypeError       (* [None[i]] *)
| ValueError      (* [int(x)] on a string that is no integer literal, or on
                     NaN; a data frame built from columns of unequal
                     length *)
| OverflowError   (* [int(x)] on an infinite float *)
| AttributeError  (* method call on [None] *)
| CollaboratorError.  (* anything raised inside an external collaborator *)

Inductive result (A : Type) : Type :=
| Ok (a : A)
| Raise (e : exn).

Arguments Ok {A} a.
Arguments Raise {A} e.

Definition result_bind {A B} (r : result A) (k : A -> result B) : result B :=
  match r with
  | Ok a => k a
  | Raise e => Raise e
  end.

(** ** Rows *)

(** A row over the independent variables [dots_left], [dots_right], in
    declaration order.  The allowed values [np.linspace(1, 100, 100)] are the
    floats 1.0, 2.0, ..., 100.0, which are exact; they are kept as integers. *)
Definition condition : Type := (Z * Z)%type.

Definition dots_left (c : condition) : Z := fst c.
Definition dots_right (c : condition) : Z := snd c.

(** A row of the table returned by the result parser: the two independent
    variables and the dependent variable [accuracy] (a float, here a
    rational). *)
Record observation : Type := mkObservation {
  obs_dots_left : Z;
  obs_dots_right : Z;
  accuracy : Q
}.

(** [experiment_data[ivs]] *)
Definition iv_columns (o : observation) : condition :=
  (obs_dots_left o, obs_dots_right o).

(** [experiment_data[dvs]] *)
Definition dv_columns (o : observation) : Q := accuracy o.

(** ** preprocessing.py *)

(** A float as [json.loads] returns it: finite, given by its exact value,
    or one of the non-finite values the decoder also accepts. *)
Inductive pyfloat : Type :=
| Finite (q : Q)
| Infinity (negative : bool)
| NaN.

(** A scalar value of a decoded JSON document. *)
Inductive value : Type :=
| VNone
| VBool (b : bool)
| VInt (z : Z)
| VFloat (f : pyfloat)
| VStr (s : string).

(** The number a value stands for in a comparison: booleans count as 0 and
    1, and integers and finite floats are compared exactly. *)
Definition finite_number (v : value) : option Q :=
  match v with
  | VBool b => Some (if b then 1%Q else 0%Q)
  | VInt z => Some (inject_Z z)
  | VFloat (Finite q) => Some q
  | _ => None
  end.

(** [a == b] on scalars. *)
Definition py_eq (a b : value) : bool :=
  match a, b with
  | VNone, VNone => true
  | VStr s, VStr s' => String.eqb s s'
  | VFloat (Infinity n), VFloat (Infinity n') => Bool.eqb n n'
  | _, _ =>
      match finite_number a, finite_number b with
      | Some x, Some y => Qeq_bool x y
      | _, _ => false
      end
  end.

(** An entry of a jsPsych trial dictionary: the key may be missing, may be
    bound to [None] (JSON null), or bound to a value. *)
Inductive entry (A : Type) : Type :=
| Absent
| Null
| Val (a : A).

Arguments Absent {A}.
Arguments Null {A}.
Arguments Val {A} a.

(** The keys of a trial that the parser reads.  The trial type and the
    pressed key are strings, and [number_of_oobs] is a list of scalars. *)
Record trial : Type := mkTrial {
  trial_type : entry string;
  rt : entry Z;
  number_of_oobs : entry (list value);
  key_press : entry string
}.

(** [trial[k]] *)
Definition getitem {A} (e : entry A) : result (entry A) :=
  match e with
  | Absent => Raise KeyError
  | _ => Ok e
  end.

(** [v[i]] for a non-negative literal index [i] *)
Definition subscript (v : entry (list value)) (i : nat) : result value :=
  match v with
  | Val l =>
      match nth_error l i with
      | Some x => Ok x
      | None => Raise IndexError
      end
  | _ => Raise TypeError
  end.

(** [v == s] for a string literal [s] *)
Definition eq_str (v : entry string) (s : string) : bool :=
  match v with
  | Val s' => String.eqb s' s
  | _ => false
  end.

(** ['rt' not in trial or trial['rt'] is None] *)
Definition no_reaction_time (t : trial) : bool :=
  match rt t with
  | Val _ => false
  | _ => true
  end.

(** The three column lists of [results_dict]. *)
Record results_dict : Type := mkResults {
  col_dots_left : list Z;
  col_dots_right : list Z;
  col_accuracy : list Q
}.

Definition empty_results : results_dict := mkResults [] [] [].

(** The accuracy rule of lines 32-35, on the entries as they are in the
    trial; [and] binds tighter than [or]. *)
Definition compute_accuracy (dl dr : value) (choice : entry string) : Q :=
  if (py_eq dl dr && eq_str choice "y")
     || (negb (py_eq dl dr) && eq_str choice "n")
  then 1%Q else 0%Q.

(** [pd.DataFrame(results_dict)]: rows are read across the three columns;
    pandas refuses columns of different lengths. *)
Fixpoint DataFrame (ls rs : list Z) (accs : list Q) : result (list observation) :=
  match ls, rs, accs with
  | [], [], [] => Ok []
  | l :: ls', r :: rs', a :: accs' =>
      result_bind (DataFrame ls' rs' accs') (fun rows =>
      Ok (mkObservation l r a :: rows))
  | _, _, _ => Raise ValueError
  end.

Section Parser.

(** Python's [int] on a string, [None] where it raises [ValueError]. *)
Variable int_of_str : string -> option Z.

(** [int(v)], lines 38-39: a float is truncated towards zero. *)
Definition py_int (v : value) : result Z :=
  match v with
  | VNone => Raise TypeError
  | VBool b => Ok (if b then 1 else 0)
  | VInt z => Ok z
  | VFloat (Finite q) => Ok (Z.quot (Qnum q) (Zpos (Qden q)))
  | VFloat (Infinity _) => Raise OverflowError
  | VFloat NaN => Raise ValueError
  | VStr s =>
      match int_of_str s with
      | Some z => Ok z
      | None => Raise ValueError
      end
  end.

(** One iteration of the [for trial in trial_sequence] loop body. *)
Definition parse_trial (acc : results_dict) (t : trial) : result results_dict :=
  result_bind (getitem (trial_type t)) (fun ty =>
  if negb (eq_str ty "rok") then Ok acc
  else if no_reaction_time t then Ok acc
  else
    result_bind (getitem (number_of_oobs t)) (fun oobs =>
    result_bind (subscript oobs 0) (fun dots_left =>
    result_bind (subscript oobs 1) (fun dots_right =>
    result_bind (getitem (key_press t)) (fun choice =>
    let accuracy := compute_accuracy dots_left dots_right choice in
    result_bind (py_int dots_left) (fun int_left =>
    result_bind (py_int dots_right) (fun int_right =>
    Ok (mkResults (col_dots_left acc ++ [int_left])
                  (col_dots_right acc ++ [int_right])
                  (col_accuracy acc ++ [accuracy]))))))))).

Fixpoint parse_loop (acc : results_dict) (ts : list trial) : result results_dict :=
  match ts with
  | [] => Ok acc
  | t :: rest => result_bind (parse_trial acc t) (fun acc' => parse_loop acc' rest)
  end.

Definition trial_list_to_experiment_data (trial_sequence : list trial)
  : result (list observation) :=
  result_bind (parse_loop empty_results trial_sequence) (fun d =>
  DataFrame (col_dots_left d) (col_dots_right d) (col_accuracy d)).

End Parser.

(** ** Design space (autora_workflow.py, lines 72-84) *)

(** [np.linspace(start, stop, num)] when the step [(stop - start) / (num - 1)]
    is a whole number, as it is for [linspace(1, 100, 100)]. *)
Definition linspace (start stop : Z) (num : nat) : list Z :=
  map (fun i => start + Z.of_nat i * ((stop - start) / (Z.of_nat num - 1)))
      (seq 0 num).

(** [Variable(name=..., allowed_values=...)] *)
Record variable : Type := mkVariable {
  name : string;
  allowed_values : list Z
}.

Definition independent_variables : list variable :=
  [ mkVariable "dots_left" (linspace 1 100 100);
    mkVariable "dots_right" (linspace 1 100 100) ].

(** [value_range=(0, 1)] of the dependent variable [accuracy] *)
Definition accuracy_value_range : Q * Q := (0%Q, 1%Q).

(** Modelled from the spec: [grid_pool] of the autora package is not part of
    the repository; section 4.4 describes it as the cross-product of the
    allowed-value sets in declaration order, the first variable varying
    slowest. *)
Definition grid_pool (a b : list Z) : list condition :=
  flat_map (fun x => map (fun y => (x, y)) b) a.

(** [t[t["dots_left"] != t["dots_right"]].reset_index(drop=True)] *)
Definition remove_equal_dots (t : list condition) : list condition :=
  filter (fun c => negb (Z.eqb (dots_left c) (dots_right c))) t.

Definition design_space (a b : list Z) : list condition :=
  remove_equal_dots (grid_pool a b).

Definition allowed_conditions : list condition :=
  design_space (linspace 1 100 100) (linspace 1 100 100).

(** ** Study parameters (lines 66-68) *)

Definition num_cycles : nat := 2.
Definition num_trials : nat := 10.
Definition num_conditions_per_cycle : nat := 2.

(** ** Helpers on tables and lists *)

Definition condition_eqb (c d : condition) : bool :=
  Z.eqb (fst c) (fst d) && Z.eqb (snd c) (snd d).

Definition mem (c : condition) (t : list condition) : bool :=
  existsb (condition_eqb c) t.

(** [df.drop_duplicates()]: the first occurrence of every row is kept. *)
Fixpoint drop_duplicates_from (seen t : list condition) : list condition :=
  match t with
  | [] => []
  | r :: rest =>
      if mem r seen then drop_duplicates_from seen rest
      else r :: drop_duplicates_from (r :: seen) rest
  end.

Definition drop_duplicates (t : list condition) : list condition :=
  drop_duplicates_from [] t.

(** [l[-k]] for a literal [k >= 1] *)
Definition index_from_end {A} (l : list A) (k : nat) : result A :=
  if (k <=? List.length l)%nat then
    match nth_error l (List.length l - k) with
    | Some x => Ok x
    | None => Raise IndexError
    end
  else Raise IndexError.

(** [df is None or df.empty] *)
Definition none_or_empty {A} (t : option (list A)) : bool :=
  match t with
  | None => true
  | Some [] => true
  | Some (_ :: _) => false
  end.

(** The rows of a table that may still be unset. *)
Definition rows_of {A} (t : option (list A)) : list A :=
  match t with
  | None => []
  | Some l => l
  end.

(** ** Computations with collaborators *)

(** A computation reads and updates the world outside the program (the
    random generator, the remote store, the estimator objects) and either
    returns or raises. *)
Definition M (W A : Type) : Type := W -> result (A * W).

Definition ret {W A} (a : A) : M W A := fun w => Ok (a, w).

Definition bind {W A B} (m : M W A) (k : A -> M W B) : M W B :=
  fun w =>
    match m w with
    | Ok (a, w') => k a w'
    | Raise e => Raise e
    end.

Definition lift {W A} (r : result A) : M W A :=
  fun w =>
    match r with
    | Ok a => Ok (a, w)
    | Raise e => Raise e
    end.

Declare Scope comp_scope.
Delimit Scope comp_scope with comp.
Notation "x <- c ;; k" := (bind c (fun x => k))
  (at level 61, c at next level, right associativity) : comp_scope.
Local Open Scope comp_scope.

Fixpoint mapM {W A B} (f : A -> M W B) (l : list A) : M W (list B) :=
  match l with
  | [] => ret []
  | x :: rest => y <- f x ;; ys <- mapM f rest ;; ret (y :: ys)
  end.

(** ** State container and deltas *)

(** The fields of [StandardState] the workflow uses.  The field [variables]
    is set once, from [independent_variables] and the dependent variable,
    and no delta names it. *)
Record State (Model : Type) : Type := mkState {
  conditions : option (list condition);
  experiment_data : option (list observation);
  models : list Model
}.

Arguments mkState {Model}.
Arguments conditions {Model}.
Arguments experiment_data {Model}.
Arguments models {Model}.

(** [Delta(...)]: the fields a stage names. *)
Record Delta (Model : Type) : Type := mkDelta {
  delta_conditions : option (list condition);
  delta_experiment_data : option (list observation);
  delta_models : option (list Model)
}.

Arguments mkDelta {Model}.
Arguments delta_conditions {Model}.
Arguments delta_experiment_data {Model}.
Arguments delta_models {Model}.

(** [Delta()] *)
Definition empty_delta {Model} : Delta Model := mkDelta None None None.

(** [StandardState(variables=variables)] *)
Definition initial_state {Model} : State Model := mkState None None [].

(** Modelled from the spec: the declaration of [StandardState] and its
    [state + delta] operation belong to the autora package.  Section 4.1
    gives the policy of each field: the condition pool is replaced, the
    observation table and the model history are appended to, an unset field
    is initialised by the first append, and a field the delta does not name
    is left as it is. *)
Definition merge {Model} (s : State Model) (d : Delta Model) : State Model :=
  mkState
    (match delta_conditions d with
     | Some c => Some c
     | None => conditions s
     end)
    (match delta_experiment_data d with
     | Some new =>
         match experiment_data s with
         | Some old => Some (old ++ new)
         | None => Some new
         end
     | None => experiment_data s
     end)
    (match delta_models d with
     | Some new => models s ++ new
     | None => models s
     end).

(** ** Collaborators *)

(** [pick_conditions] is bound at import time to one of two samplers,
    whichever package is installed. *)
Inductive sampler_binding (World Model : Type) : Type :=
| NutsSample
    (* [nuts_sample(allowed_conditions, existing_conditions, num_samples,
       feature_cols)] *)
    (nuts_sample : list condition -> list condition -> nat -> list string ->
                   M World (list condition))
| FallbackSample
    (* [sample(conditions, models, reference_conditions, num_samples)] *)
    (fallback_sample : list condition -> list Model -> list condition -> nat ->
                       M World (list condition)).

Arguments NutsSample {World Model}.
Arguments FallbackSample {World Model}.

(** What the workflow imports from other packages.  A model handle is a
    reference to an estimator object. *)
Record collaborators (World Model : Type) : Type := mkCollaborators {
  (* autora.experimentalist.random *)
  random_sample : list condition -> nat -> M World (list condition);
  (* autora.experimentalist.nuts, or else the example experimentalist *)
  condition_sampler : sampler_binding World Model;
  (* sweetpea: the counterbalanced timeline of one condition *)
  trial_sequence : Z -> Z -> nat -> M World (list (Z * Z));
  (* sweetbean: the compiled experiment, a JavaScript string *)
  stimulus_sequence : list (Z * Z) -> M World string;
  (* autora.experiment_runner.firebase_prolific *)
  experiment_runner : list (condition * string) -> M World (list string);
  (* [json.loads(item)["trials"]] *)
  json_loads_trials : string -> result (list trial);
  (* the builtin [int] on a string, [None] where it raises [ValueError] *)
  builtin_int : string -> option Z;
  (* [nuts_theorist.fit], [bms_theorist.fit] *)
  nuts_fit : list condition -> list Q -> M World Model;
  bms_fit : list condition -> list Q -> M World Model;
  (* [lr_theorist], and [LogisticRegression.fit] of scikit-learn on the
     estimator it wraps *)
  lr_theorist : Model;
  sklearn_fit : list condition -> list Q -> M World unit
}.

Arguments random_sample {World Model}.
Arguments condition_sampler {World Model}.
Arguments trial_sequence {World Model}.
Arguments stimulus_sequence {World Model}.
Arguments experiment_runner {World Model}.
Arguments json_loads_trials {World Model}.
Arguments builtin_int {World Model}.
Arguments nuts_fit {World Model}.
Arguments bms_fit {World Model}.
Arguments lr_theorist {World Model}.
Arguments sklearn_fit {World Model}.

(** ** The stages (autora_workflow.py) *)

Section Workflow.

Context {World Model : Type}.
Variable C : collaborators World Model.

(** [ivs = [iv.name for iv in variables.independent_variables]] *)
Definition ivs : list string := map name independent_variables.

(** Lines 37-58. *)
Definition pick_conditions (allowed existing : list condition)
    (models_to_compare : list Model) (k : nat) : M World (list condition) :=
  match condition_sampler C with
  | NutsSample nuts_sample => nuts_sample allowed existing k ivs
  | FallbackSample fallback_sample =>
      let ref := match existing with
                 | _ :: _ => existing
                 | [] => firstn 0 allowed
                 end in
      fallback_sample allowed models_to_compare ref k
  end.

(** [LogisticRegressor.fit], lines 96-99: fits the wrapped estimator and
    returns [self]. *)
Definition LogisticRegressor_fit (X : list condition) (y : list Q)
  : M World Model :=
  _ <- sklearn_fit C X y ;; ret (lr_theorist C).

(** Lines 114-132, before [@on_state()]. *)
Definition theorist (experiment_data : option (list observation))
  : M World (Delta Model) :=
  if none_or_empty experiment_data then ret empty_delta
  else
    let X := map iv_columns (rows_of experiment_data) in
    let y_df := map dv_columns (rows_of experiment_data) in
    let y_lr := y_df in
    model_nuts <- nuts_fit C X y_df ;;
    model_bms <- bms_fit C X y_df ;;
    model_lr <- LogisticRegressor_fit X y_lr ;;
    ret (mkDelta None None (Some [model_nuts; model_bms; model_lr])).

(** Lines 136-138. *)
Definition initialize (allowed : list condition) (num_samples : nat)
  : M World (Delta Model) :=
  sampled <- random_sample C allowed num_samples ;;
  ret (mkDelta (Some sampled) None None).

(** Lines 140-147. *)
Definition experimentalist (allowed : list condition)
    (experiment_data : option (list observation))
    (models_to_compare : list Model) (num_samples : nat)
  : M World (Delta Model) :=
  let existing :=
    if none_or_empty experiment_data then []
    else drop_duplicates (map iv_columns (rows_of experiment_data)) in
  chosen <- pick_conditions allowed existing models_to_compare num_samples ;;
  ret (mkDelta (Some chosen) None None).

(** Lines 183-187: the parsed tables are concatenated blob after blob. *)
Fixpoint preprocess (experiment_data : list observation)
    (data_raw : list string) : result (list observation) :=
  match data_raw with
  | [] => Ok experiment_data
  | item :: rest =>
      result_bind (json_loads_trials C item) (fun _lst =>
      result_bind (trial_list_to_experiment_data (builtin_int C) _lst)
                  (fun _df =>
      preprocess (experiment_data ++ _df) rest))
  end.

(** Lines 163-191. *)
Definition runner (conditions : option (list condition))
  : M World (Delta Model) :=
  match conditions with
  | None => lift (Raise AttributeError)
  | Some rows =>
      res <- mapM (fun c =>
               timeline <- trial_sequence C (dots_left c) (dots_right c)
                                          num_trials ;;
               stimulus_sequence C timeline) rows ;;
      data_raw <- experiment_runner C (combine rows res) ;;
      experiment_data <- lift (preprocess [] data_raw) ;;
      ret (mkDelta None (Some experiment_data) None)
  end.

(** [@on_state()]: the function receives the fields it names and its delta
    is merged into the container. *)
Definition on_state (f : State Model -> M World (Delta Model))
    (s : State Model) : M World (State Model) :=
  d <- f s ;; ret (merge s d).

Definition theorist_on_state : State Model -> M World (State Model) :=
  on_state (fun s => theorist (experiment_data s)).

Definition initialize_state (s : State Model) (allowed : list condition)
    (num_samples : nat) : M World (State Model) :=
  on_state (fun _ => initialize allowed num_samples) s.

Definition experimentalist_on_state (s : State Model)
    (allowed : list condition) (models_to_compare : list Model)
    (num_samples : nat) : M World (State Model) :=
  on_state (fun s => experimentalist allowed (experiment_data s)
                                     models_to_compare num_samples) s.

Definition runner_on_state : State Model -> M World (State Model) :=
  on_state (fun s => runner (conditions s)).

(** ** The scheduler (lines 195-212) *)

(** Line 205: [[state.models[-1], state.models[-2], state.models[-3]]] *)
Definition models_to_compare (history : list Model) : result (list Model) :=
  result_bind (index_from_end history 1) (fun m1 =>
  result_bind (index_from_end history 2) (fun m2 =>
  result_bind (index_from_end history 3) (fun m3 =>
  Ok [m1; m2; m3]))).

(** The body of the [for] loop. *)
Definition cycle (state : State Model) : M World (State Model) :=
  state <- runner_on_state state ;;
  state <- theorist_on_state state ;;
  to_compare <- lift (models_to_compare (models state)) ;;
  experimentalist_on_state state allowed_conditions to_compare
                           num_conditions_per_cycle.

Fixpoint loop (n : nat) (state : State Model) : M World (State Model) :=
  match n with
  | O => ret state
  | S k => state <- cycle state ;; loop k state
  end.

(** The whole run for a given number of cycles. *)
Definition workflow_for (cycles : nat) : M World (State Model) :=
  state <- initialize_state initial_state allowed_conditions
                            num_conditions_per_cycle ;;
  loop cycles state.

Definition workflow : M World (State Model) := workflow_for num_cycles.

End Workflow.

(** ** A concrete laboratory

    Stand-ins for the collaborators, used to run the workflow on concrete
    inputs.  The world is the queue of batches the remote store will hand
    back, one batch per submission; a handle names one of the three
    estimator objects, and every fit returns the estimator itself. *)

Module Lab.

Inductive estimator : Type :=
| Nuts
| BMS
| LogisticRegression.

Definition world : Type := list (list string).

(** An instruction screen, a dot display answered with [n] after 640 ms and
    a dot display that timed out. *)
Definition instruction_event : trial :=
  mkTrial (Val "html-keyboard-response") (Val 1200) Absent Absent.

Definition answered_event (l r : Z) (key : string) : trial :=
  mkTrial (Val "rok") (Val 640) (Val [VInt l; VInt r]) (Val key).

Definition timed_out_event (l r : Z) : trial :=
  mkTrial (Val "rok") Null (Val [VInt l; VInt r]) Null.

(** A dot display answered with [n] whose counts arrived as given. *)
Definition raw_event (l r : value) : trial :=
  mkTrial (Val "rok") (Val 640) (Val [l; r]) (Val "n").

(** An integer literal of decimal digits; stands for the builtin [int] on
    strings in the laboratory. *)
Fixpoint decimal_digits (s : string) (acc : Z) : option Z :=
  match s with
  | EmptyString => Some acc
  | String c rest =>
      let n := Z.of_nat (Ascii.nat_of_ascii c) in
      if Z.leb 48 n && Z.leb n 57
      then decimal_digits rest (10 * acc + (n - 48))
      else None
  end.

Definition decimal (s : string) : option Z :=
  match s with
  | EmptyString => None
  | _ => decimal_digits s 0
  end.

(** An event without a [trial_type] key. *)
Definition untyped_event : trial := mkTrial Absent (Val 1200) Absent Absent.

(** A dot display whose record lost its [number_of_oobs] key. *)
Definition truncated_event : trial :=
  mkTrial (Val "rok") (Val 640) Absent (Val "n").

(** The blobs the store can hand back. *)
Definition decode (item : string) : result (list trial) :=
  if String.eqb item "answered" then
    Ok [instruction_event; answered_event 1 2 "n"; timed_out_event 2 1]
  else if String.eqb item "silent" then
    Ok [instruction_event; timed_out_event 1 2; timed_out_event 2 1]
  else Raise CollaboratorError.

Definition deliver (_ : list (condition * string)) : M world (list string) :=
  fun w =>
    match w with
    | [] => Ok ([], [])
    | batch :: rest => Ok (batch, rest)
    end.

(** A sampler reached through the fallback import that returns the first
    rows of the pool it is given and does not look at the reference rows. *)
Definition first_rows : sampler_binding world estimator :=
  FallbackSample (fun conditions _ _ k => ret (firstn k conditions)).

(** A sampler that skips the rows it is told exist already. *)
Definition novel_rows : sampler_binding world estimator :=
  NutsSample (fun allowed existing k _ =>
    ret (firstn k (filter (fun c => negb (mem c existing)) allowed))).

Definition lab (sampler : sampler_binding world estimator)
  : collaborators world estimator :=
  mkCollaborators world estimator
    (fun allowed k => ret (firstn k allowed))
    sampler
    (fun a b _ => ret [(a, a); (a, b); (b, a); (b, b)])
    (fun _ => ret "jsPsych.run(timeline)")
    deliver
    decode
    decimal
    (fun _ _ => ret Nuts)
    (fun _ _ => ret BMS)
    LogisticRegression
    (fun _ _ => ret tt).

(** Containers of a first cycle in which one row came back. *)
Definition pool : list condition := [(1, 2); (1, 3)].

Definition observed : list observation := [mkObservation 1 2 1].

Definition bootstrapped : State estimator := mkState (Some pool) None [].

Definition executed : State estimator :=
  mkState (Some pool) (Some observed) [].

Definition fitted : State estimator :=
  mkState (Some pool) (Some observed) [Nuts; BMS; LogisticRegression].

(** The container after an execution stage that collected nothing. *)
Definition executed_empty : State estimator := mkState (Some pool) (Some []) [].

(** The container after a selection stage that skipped the observed row. *)
Definition reselected : State estimator :=
  mkState (Some [(1, 3); (1, 4)]) (Some observed)
          [Nuts; BMS; LogisticRegression].

(** The store hands back two blobs in the first cycle and one in the
    second. *)
Definition two_then_one : world := [["answered"; "answered"]; ["answered"]].

End Lab.

(** ** Vocabulary of the properties *)

(** An event of the measured type with a recorded response: its
    [trial_type] is ['rok'] and its [rt] key is present and not [None]. *)
Definition measured_with_response (t : trial) : bool :=
  eq_str (trial_type t) "rok" && negb (no_reaction_time t).

(** [int] accepts the value. *)
Definition int_accepts (int_of_str : string -> option Z) (v : value) : bool :=
  match py_int int_of_str v with
  | Ok _ => true
  | Raise _ => false
  end.

(** An event the parser can read: it has a [trial_type], and if it is a
    measured event with a response it also has two dot counts that [int]
    accepts and a [key_press] key. *)
Definition readable (int_of_str : string -> option Z) (t : trial) : bool :=
  match trial_type t with
  | Absent => false
  | _ =>
      if measured_with_response t then
        match number_of_oobs t, key_press t with
        | Val (dl :: dr :: _), (Null | Val _) =>
            int_accepts int_of_str dl && int_accepts int_of_str dr
        | _, _ => false
        end
      else true
  end.

(** The columns of a table, as [results_dict] holds them. *)
Definition columns_of (rows : list observation) : results_dict :=
  mkResults (map obs_dots_left rows) (map obs_dots_right rows)
            (map accuracy rows).

(** Row [r] reports event [t]: the dot counts are [int] of the first two
    entries of [number_of_oobs] and the accuracy follows these entries and
    the key pressed. *)
Definition reports (int_of_str : string -> option Z) (t : trial)
    (r : observation) : Prop :=
  exists dl dr choice,
    subscript (number_of_oobs t) 0 = Ok dl /\
    subscript (number_of_oobs t) 1 = Ok dr /\
    getitem (key_press t) = Ok choice /\
    py_int int_of_str dl = Ok (obs_dots_left r) /\
    py_int int_of_str dr = Ok (obs_dots_right r) /\
    accuracy r = compute_accuracy dl dr choice.

(** The observed combinations the selection stage hands to the sampler. *)
Definition existing_conditions (data : option (list observation))
  : list condition :=
  if none_or_empty data then []
  else drop_duplicates (map iv_columns (rows_of data)).

Section Runs.

Context {World Model : Type}.
Variable C : collaborators World Model.

(** The outputs of one fit stage, listed by family: Nuts, BMS,
    LogisticRegression. *)
Definition fit_families (data : option (list observation))
  : M World (list Model) :=
  m_nuts <- nuts_fit C (map iv_columns (rows_of data))
                       (map dv_columns (rows_of data)) ;;
  m_bms <- bms_fit C (map iv_columns (rows_of data))
                     (map dv_columns (rows_of data)) ;;
  m_lr <- LogisticRegressor_fit C (map iv_columns (rows_of data))
                                  (map dv_columns (rows_of data)) ;;
  ret [m_nuts; m_bms; m_lr].

(** The stages that are not the fit stage, with the arguments the caller
    supplies. *)
Inductive other_stage : Type :=
| Bootstrap (allowed : list condition) (num_samples : nat)
| Execute
| Select (allowed : list condition) (to_compare : list Model)
         (num_samples : nat).

Definition apply_stage (c : other_stage) (s : State Model)
  : M World (State Model) :=
  match c with
  | Bootstrap allowed k => initialize_state C s allowed k
  | Execute => runner_on_state C s
  | Select allowed to_compare k =>
      experimentalist_on_state C s allowed to_compare k
  end.

(** The sampler invocation of a stage that fills the condition pool: the
    bootstrap stage calls the random sampler, the selection stage calls the
    sampler bound at import time with the observed combinations. *)
Definition sampler_call (c : other_stage) (s : State Model)
  : option (M World (list condition)) :=
  match c with
  | Bootstrap allowed k => Some (random_sample C allowed k)
  | Execute => None
  | Select allowed to_compare k =>
      Some (match condition_sampler C with
            | NutsSample nuts_sample =>
                nuts_sample allowed
                            (existing_conditions (experiment_data s)) k ivs
            | FallbackSample fallback_sample =>
                fallback_sample allowed to_compare
                                (existing_conditions (experiment_data s)) k
            end)
  end.

(** [run fits s w]: container [s] and world [w] are reached from the
    initial container by completed stages, in any order; every fit stage
    saw a non-empty observation table, and [fits] lists the outputs of the
    fit stages, oldest first. *)
Inductive run : list (list Model) -> State Model -> World -> Prop :=
| run_start w :
    run [] initial_state w
| run_other fits s w c s' w' :
    run fits s w ->
    apply_stage c s w = Ok (s', w') ->
    run fits s' w'
| run_fit fits s w s' w' out :
    run fits s w ->
    none_or_empty (experiment_data s) = false ->
    fit_families (experiment_data s) w = Ok (out, w') ->
    theorist_on_state C s w = Ok (s', w') ->
    run (fits ++ [out]) s' w'.

End Runs.

(** ** Further vocabulary *)

(** The row one event contributes to the table, if any: the loop body of
    the parser seen as a function of the event alone. *)
Definition trial_row (int_of_str : string -> option Z) (t : trial)
  : result (option observation) :=
  result_bind (getitem (trial_type t)) (fun ty =>
  if negb (eq_str ty "rok") then Ok None
  else if no_reaction_time t then Ok None
  else
    result_bind (getitem (number_of_oobs t)) (fun oobs =>
    result_bind (subscript oobs 0) (fun dl =>
    result_bind (subscript oobs 1) (fun dr =>
    result_bind (getitem (key_press t)) (fun choice =>
    result_bind (py_int int_of_str dl) (fun int_left =>
    result_bind (py_int int_of_str dr) (fun int_right =>
    Ok (Some (mkObservation int_left int_right
                            (compute_accuracy dl dr choice)))))))))).

Fixpoint trial_rows (int_of_str : string -> option Z) (ts : list trial)
  : result (list observation) :=
  match ts with
  | [] => Ok []
  | t :: rest =>
      result_bind (trial_row int_of_str t) (fun o =>
      result_bind (trial_rows int_of_str rest) (fun rows =>
      Ok (match o with
          | Some r => r :: rows
          | None => rows
          end)))
  end.

(** Line 227: [state.models[-3], state.models[-2], state.models[-1]], read
    by the plot as Nuts, BMS, LogisticRegression. *)
Definition plot_models {A} (history : list A) : result (A * A * A) :=
  result_bind (index_from_end history 3) (fun model_nuts =>
  result_bind (index_from_end history 2) (fun model_bms =>
  result_bind (index_from_end history 1) (fun model_lr =>
  Ok (model_nuts, model_bms, model_lr)))).

(** Any stage of the loop. *)
Inductive stage (Model : Type) : Type :=
| Other (c : other_stage (Model := Model))
| Fit.

Arguments Other {Model} c.
Arguments Fit {Model}.

Definition run_stage {World Model} (C : collaborators World Model)
    (st : stage Model) (s : State Model) : M World (State Model) :=
  match st with
  | Other c => apply_stage C c s
  | Fit => theorist_on_state C s
  end.

(** ** The prediction grid of the plot (lines 221-232) *)

(** [np.meshgrid(x, y)]: two tables with one row per entry of [y] and one
    column per entry of [x]; the first repeats [x] in every row, the second
    repeats the entry of [y] along its row. *)
Definition meshgrid {A} (x y : list A) : list (list A) * list (list A) :=
  (map (fun _ => x) y, map (fun yi => map (fun _ => yi) x) y).

(** [m.ravel()]: the rows one after the other. *)
Definition ravel {A} (m : list (list A)) : list A := List.concat m.

(** [np.c_[u, v]] for two vectors: the table with columns [u] and [v]. *)
Definition c_ {A} (u v : list A) : result (list (A * A)) :=
  if Nat.eqb (List.length u) (List.length v) then Ok (combine u v)
  else Raise ValueError.

(** [m.shape] *)
Definition shape {A} (m : list (list A)) : nat * nat :=
  (List.length m,
   match m with
   | r :: _ => List.length r
   | [] => 0%nat
   end).

Fixpoint rows_of_length {A} (nrows ncols : nat) (v : list A)
  : list (list A) :=
  match nrows with
  | O => []
  | S k => firstn ncols v :: rows_of_length k ncols (skipn ncols v)
  end.

(** [np.asarray(v).reshape(shape)]: the entries in order, row after row;
    refused unless the sizes agree. *)
Definition reshape {A} (sh : nat * nat) (v : list A)
  : result (list (list A)) :=
  if Nat.eqb (List.length v) (fst sh * snd sh)
  then Ok (rows_of_length (fst sh) (snd sh) v)
  else Raise ValueError.

(** Lines 223-224: [iv1_grid, iv2_grid] and [iv_grid] for two ranges. *)
Definition grid_points {A} (iv1_range iv2_range : list A)
  : result (list (A * A)) :=
  c_ (ravel (fst (meshgrid iv1_range iv2_range)))
     (ravel (snd (meshgrid iv1_range iv2_range))).

(** Lines 229-232, with the globals [iv_grid] and [iv1_grid] as arguments
    and [model.predict] as a collaborator that returns its predictions in
    the order of the rows it is given. *)
Definition _ensure_grid_pred {World A B}
    (predict : list (A * A) -> M World (list B))
    (iv_grid : list (A * A)) (iv1_grid : list (list A))
  : M World (list (list B)) :=
  bind (predict iv_grid) (fun pred => lift (reshape (shape iv1_grid) pred)).

(** * Properties *)

(** ** Inversion of computations *)

Lemma result_bind_Ok {A B} (r : result A) (k : A -> result B) (b : B) :
  result_bind r k = Ok b -> exists a, r = Ok a /\ k a = Ok b.
Proof.
  destruct r as [a|e]; simpl; intros H; [eauto | discriminate].
Qed.

Lemma bind_Ok {W A B} (m : M W A) (k : A -> M W B) w b w' :
  bind m k w = Ok (b, w') ->
  exists a w1, m w = Ok (a, w1) /\ k a w1 = Ok (b, w').
Proof.
  unfold bind. destruct (m w) as [[a w1]|e]; intros H; [eauto | discriminate].
Qed.

Lemma ret_Ok {W A} (a b : A) (w w' : W) :
  ret a w = Ok (b, w') -> b = a /\ w' = w.
Proof. unfold ret. intros H. inversion H. auto. Qed.

Lemma lift_Ok {W A} (r : result A) (a : A) (w w' : W) :
  lift r w = Ok (a, w') -> r = Ok a /\ w' = w.
Proof.
  unfold lift. destruct r; intros H; inversion H. auto.
Qed.

Lemma on_state_Ok {W Mdl} (f : State Mdl -> M W (Delta Mdl)) s w s' w' :
  on_state f s w = Ok (s', w') ->
  exists d, f s w = Ok (d, w') /\ s' = merge s d.
Proof.
  unfold on_state. intros H.
  apply bind_Ok in H. destruct H as (d & w1 & Hf & Hr).
  apply ret_Ok in Hr. destruct Hr; subst. eauto.
Qed.

(** Peels the binds of a computation known to have returned. *)
Ltac invert_comp H :=
  repeat match type of H with
  | bind _ _ _ = Ok _ =>
      let a := fresh "a" in let w := fresh "w" in
      let Hm := fresh "Hm" in
      apply bind_Ok in H; destruct H as (a & w & Hm & H)
  | ret _ _ = Ok _ => apply ret_Ok in H; destruct H; subst
  | lift _ _ = Ok _ => apply lift_Ok in H; destruct H; subst
  end.

(** ** The result parser *)

Lemma py_eq_int (a b : Z) : py_eq (VInt a) (VInt b) = true <-> a = b.
Proof.
  unfold py_eq. simpl. rewrite Qeq_bool_iff. unfold Qeq. simpl. lia.
Qed.

Lemma eq_str_true (v : entry string) (s : string) :
  eq_str v s = true <-> v = Val s.
Proof.
  destruct v as [| |s']; simpl; split; intros H; try discriminate.
  - apply String.eqb_eq in H. congruence.
  - inversion H. apply String.eqb_refl.
Qed.

Lemma compute_accuracy_rule (dl dr : value) (choice : entry string) :
  let correct := (py_eq dl dr = true /\ choice = Val "y") \/
                 (py_eq dl dr = false /\ choice = Val "n") in
  (correct /\ compute_accuracy dl dr choice = 1%Q) \/
  (~ correct /\ compute_accuracy dl dr choice = 0%Q).
Proof.
  unfold compute_accuracy.
  destruct (py_eq dl dr) eqn:E; simpl.
  - destruct (eq_str choice "y") eqn:Hy; simpl.
    + left. apply eq_str_true in Hy. auto.
    + right. split; [|reflexivity]. intros [[_ H]|[H _]]; [|discriminate].
      apply eq_str_true in H. congruence.
  - destruct (eq_str choice "n") eqn:Hn; simpl.
    + left. apply eq_str_true in Hn. auto.
    + right. split; [|reflexivity]. intros [[H _]|[_ H]]; [discriminate|].
      apply eq_str_true in H. congruence.
Qed.

Lemma getitem_Ok {A} (e v : entry A) : getitem e = Ok v -> v = e /\ e <> Absent.
Proof. destruct e; simpl; intros H; inversion H; split; congruence. Qed.

Lemma Forall2_impl_right {A B} (R : A -> B -> Prop) (P : B -> Prop) :
  (forall a b, R a b -> P b) ->
  forall l1 l2, Forall2 R l1 l2 -> Forall P l2.
Proof.
  intros HRP l1 l2 H. induction H; constructor; eauto.
Qed.

Lemma Forall2_weaken {A B} (R R' : A -> B -> Prop) :
  (forall a b, R a b -> R' a b) ->
  forall l1 l2, Forall2 R l1 l2 -> Forall2 R' l1 l2.
Proof.
  intros HR l1 l2 H. induction H; constructor; auto.
Qed.

Lemma DataFrame_columns (rows : list observation) :
  DataFrame (map obs_dots_left rows) (map obs_dots_right rows)
            (map accuracy rows) = Ok rows.
Proof.
  induction rows as [|r rows IH]; simpl; [reflexivity|].
  rewrite IH. destruct r; reflexivity.
Qed.

Lemma columns_of_snoc (rows : list observation) (r : observation) :
  columns_of (rows ++ [r]) =
  mkResults (col_dots_left (columns_of rows) ++ [obs_dots_left r])
            (col_dots_right (columns_of rows) ++ [obs_dots_right r])
            (col_accuracy (columns_of rows) ++ [accuracy r]).
Proof. unfold columns_of. simpl. rewrite !map_app. reflexivity. Qed.

Section ParserFacts.

Variable int_of_str : string -> option Z.

Lemma int_accepts_Ok (v : value) :
  int_accepts int_of_str v = true <-> exists z, py_int int_of_str v = Ok z.
Proof.
  unfold int_accepts. destruct (py_int int_of_str v) as [z|e]; split.
  - eauto.
  - reflexivity.
  - discriminate.
  - intros (z & H). discriminate.
Qed.

Lemma parse_trial_skip (acc : results_dict) (t : trial) :
  trial_type t <> Absent ->
  measured_with_response t = false ->
  parse_trial int_of_str acc t = Ok acc.
Proof.
  unfold measured_with_response, parse_trial. intros Hty Hm.
  destruct (trial_type t) as [| |ty] eqn:E; [congruence | reflexivity |].
  simpl in *. destruct (String.eqb ty "rok"); simpl in *; [|reflexivity].
  rewrite negb_false_iff in Hm. rewrite Hm. reflexivity.
Qed.

Lemma parse_trial_keep (rows : list observation) (t : trial) (d : results_dict) :
  measured_with_response t = true ->
  parse_trial int_of_str (columns_of rows) t = Ok d ->
  exists r, d = columns_of (rows ++ [r]) /\ reports int_of_str t r.
Proof.
  unfold measured_with_response. intros Hm H.
  apply andb_prop in Hm. destruct Hm as [Hrok Hrt].
  rewrite negb_true_iff in Hrt.
  unfold parse_trial in H.
  apply result_bind_Ok in H. destruct H as (ty & Hty & H).
  assert (ty = trial_type t) as ->.
  { destruct (trial_type t); simpl in Hty; congruence. }
  rewrite Hrok, Hrt in H. simpl in H.
  apply result_bind_Ok in H. destruct H as (oobs & Hoobs & H).
  assert (oobs = number_of_oobs t) as ->.
  { destruct (number_of_oobs t); simpl in Hoobs; congruence. }
  apply result_bind_Ok in H. destruct H as (dl & Hdl & H).
  apply result_bind_Ok in H. destruct H as (dr & Hdr & H).
  apply result_bind_Ok in H. destruct H as (choice & Hch & H).
  apply result_bind_Ok in H. destruct H as (il & Hil & H).
  apply result_bind_Ok in H. destruct H as (ir & Hir & H).
  inversion H; subst d; clear H.
  exists (mkObservation il ir (compute_accuracy dl dr choice)). split.
  - rewrite columns_of_snoc. reflexivity.
  - exists dl, dr, choice. simpl. auto 10.
Qed.

Lemma parse_trial_readable (acc : results_dict) (t : trial) :
  readable int_of_str t = true -> exists d, parse_trial int_of_str acc t = Ok d.
Proof.
  unfold readable. intros H.
  destruct (measured_with_response t) eqn:Hm.
  - unfold measured_with_response in Hm.
    apply andb_prop in Hm. destruct Hm as [Hrok Hrt].
    rewrite negb_true_iff in Hrt.
    unfold parse_trial.
    destruct (trial_type t) as [| |ty]; try discriminate.
    simpl in *. rewrite Hrok, Hrt. simpl.
    destruct (number_of_oobs t) as [| |[|dl [|dr l]]]; try discriminate.
    assert (int_accepts int_of_str dl = true /\
            int_accepts int_of_str dr = true) as [Hl Hr].
    { destruct (key_press t); try discriminate;
        apply andb_prop in H; exact H. }
    apply int_accepts_Ok in Hl. destruct Hl as (il & Hl).
    apply int_accepts_Ok in Hr. destruct Hr as (ir & Hr).
    destruct (key_press t) as [| |key]; try discriminate; simpl;
      rewrite Hl, Hr; simpl; eauto.
  - exists acc. apply parse_trial_skip; [|assumption].
    destruct (trial_type t); congruence.
Qed.

Lemma parse_loop_sound (ts : list trial) :
  forall rows d,
    parse_loop int_of_str (columns_of rows) ts = Ok d ->
    exists tbl,
      d = columns_of (rows ++ tbl) /\
      Forall2 (reports int_of_str) (filter measured_with_response ts) tbl.
Proof.
  induction ts as [|t ts IH]; simpl; intros rows d H.
  - inversion H. exists []. rewrite app_nil_r. auto.
  - apply result_bind_Ok in H. destruct H as (d1 & Ht & H).
    destruct (measured_with_response t) eqn:Hm.
    + destruct (parse_trial_keep rows t d1 Hm Ht) as (r & -> & Hr).
      apply IH in H. destruct H as (tbl & -> & Htbl).
      exists (r :: tbl). rewrite <- app_assoc. simpl. auto.
    + assert (d1 = columns_of rows) as ->.
      { assert (trial_type t <> Absent) as Hty.
        { intros E. unfold parse_trial in Ht. rewrite E in Ht. discriminate. }
        rewrite (parse_trial_skip _ _ Hty Hm) in Ht. congruence. }
      apply IH in H. exact H.
Qed.

Lemma parse_loop_total (ts : list trial) :
  forall acc,
    forallb (readable int_of_str) ts = true ->
    exists d, parse_loop int_of_str acc ts = Ok d.
Proof.
  induction ts as [|t ts IH]; simpl; intros acc H.
  - eauto.
  - apply andb_prop in H. destruct H as [Ht Hts].
    destruct (parse_trial_readable acc t Ht) as (d1 & ->). simpl.
    apply IH. assumption.
Qed.

Lemma parser_sound (ts : list trial) (tbl : list observation) :
  trial_list_to_experiment_data int_of_str ts = Ok tbl ->
  Forall2 (reports int_of_str) (filter measured_with_response ts) tbl.
Proof.
  unfold trial_list_to_experiment_data. intros H.
  apply result_bind_Ok in H. destruct H as (d & Hd & H).
  apply (parse_loop_sound ts []) in Hd. destruct Hd as (tbl' & -> & Htbl').
  simpl in H. rewrite DataFrame_columns in H. congruence.
Qed.

Lemma parser_total (ts : list trial) :
  forallb (readable int_of_str) ts = true ->
  exists tbl, trial_list_to_experiment_data int_of_str ts = Ok tbl.
Proof.
  intros H. unfold trial_list_to_experiment_data.
  destruct (parse_loop_total ts empty_results H) as (d & Hd).
  rewrite Hd. simpl.
  apply (parse_loop_sound ts []) in Hd. destruct Hd as (tbl & -> & _).
  simpl. rewrite DataFrame_columns. eauto.
Qed.

(** C8 (as amended): on a trial list in which every event has a
    [trial_type] and every measured event with a response carries a
    [number_of_oobs] list whose first two entries [int] accepts and a
    [key_press] key, the parser returns a table over the columns
    [dots_left], [dots_right], [accuracy] with exactly one row, in order, per
    event whose [trial_type] is ['rok'] and whose [rt] is present and not
    [None]; the row holds [int] of the two entries; every other event is
    discarded. *)
Theorem parser_one_row_per_measured_response (ts : list trial) :
  forallb (readable int_of_str) ts = true ->
  exists tbl,
    trial_list_to_experiment_data int_of_str ts = Ok tbl /\
    List.length tbl = List.length (filter measured_with_response ts) /\
    Forall2 (reports int_of_str) (filter measured_with_response ts) tbl.
Proof.
  intros Hwf.
  destruct (parser_total ts Hwf) as (tbl & Htbl).
  exists tbl. split; [assumption|].
  pose proof (parser_sound ts tbl Htbl) as Hrows.
  split; [|assumption].
  symmetry. eapply Forall2_length. eassumption.
Qed.

(** C10: every row the parser returns reports a kept event, and its accuracy
    is 1 when the two dot counts are equal and the key is ['y'] or they are
    unequal and the key is ['n'], and 0 otherwise, the counts being compared
    with [==] as they are in the event (on integers, integer equality); so
    every accuracy is 0 or 1 and lies in the declared range of the dependent
    variable. *)
Theorem parser_accuracy_rule (ts : list trial) (tbl : list observation) :
  trial_list_to_experiment_data int_of_str ts = Ok tbl ->
  Forall2
    (fun t r =>
       exists dl dr,
         subscript (number_of_oobs t) 0 = Ok dl /\
         subscript (number_of_oobs t) 1 = Ok dr /\
         let correct := (py_eq dl dr = true /\ key_press t = Val "y") \/
                        (py_eq dl dr = false /\ key_press t = Val "n") in
         (correct -> accuracy r = 1%Q) /\
         (~ correct -> accuracy r = 0%Q))
    (filter measured_with_response ts) tbl /\
  Forall
    (fun r =>
       (accuracy r = 0%Q \/ accuracy r = 1%Q) /\
       (fst accuracy_value_range <= accuracy r)%Q /\
       (accuracy r <= snd accuracy_value_range)%Q)
    tbl /\
  (forall a b : Z, py_eq (VInt a) (VInt b) = true <-> a = b).
Proof.
  intros H. apply parser_sound in H. split; [|split].
  - eapply Forall2_weaken; [|exact H].
    intros t r (dl & dr & choice & Hl & Hr & Hch & _ & _ & Hacc).
    apply getitem_Ok in Hch. destruct Hch as [-> _].
    exists dl, dr.
    split; [assumption|]. split; [assumption|].
    destruct (compute_accuracy_rule dl dr (key_press t)) as [[Hc E]|[Hc E]];
      rewrite Hacc, E; simpl; split; intros; tauto.
  - eapply Forall2_impl_right; [|exact H].
    intros t r (dl & dr & choice & _ & _ & _ & _ & _ & Hacc). rewrite Hacc.
    destruct (compute_accuracy_rule dl dr choice) as [[_ E]|[_ E]];
      rewrite E; simpl; repeat split; auto; discriminate.
  - apply py_eq_int.
Qed.

End ParserFacts.

Lemma parser_one_row_per_measured_response_witness :
  exists tbl,
    trial_list_to_experiment_data Lab.decimal
      [Lab.instruction_event; Lab.answered_event 3 3 "y";
       Lab.timed_out_event 4 5; Lab.answered_event 3 4 "y"] = Ok tbl /\
    List.length tbl = 2%nat.
Proof.
  destruct (parser_one_row_per_measured_response Lab.decimal
              [Lab.instruction_event; Lab.answered_event 3 3 "y";
               Lab.timed_out_event 4 5; Lab.answered_event 3 4 "y"]
              eq_refl) as (tbl & Htbl & Hlen & _).
  exists tbl. split; [exact Htbl | exact Hlen].
Defined.

(** C8, the claim as stated fails: a measured event with a response whose
    record has no [number_of_oobs] key makes the parser raise [KeyError]
    instead of returning a table, and so does an event without a
    [trial_type] key, which is not discarded. *)
Lemma parser_raises_on_truncated_event :
  measured_with_response Lab.truncated_event = true /\
  trial_list_to_experiment_data Lab.decimal [Lab.truncated_event]
    = Raise KeyError /\
  (forall tbl,
     trial_list_to_experiment_data Lab.decimal [Lab.truncated_event]
       <> Ok tbl) /\
  measured_with_response Lab.untyped_event = false /\
  trial_list_to_experiment_data Lab.decimal [Lab.untyped_event]
    = Raise KeyError.
Proof.
  split; [reflexivity|]. split; [reflexivity|].
  split; [|split; reflexivity].
  intros tbl H. vm_compute in H. discriminate.
Qed.

Lemma parser_accuracy_rule_witness :
  Forall
    (fun r =>
       (accuracy r = 0%Q \/ accuracy r = 1%Q) /\
       (fst accuracy_value_range <= accuracy r)%Q /\
       (accuracy r <= snd accuracy_value_range)%Q)
    [mkObservation 3 3 1; mkObservation 3 4 0].
Proof.
  exact (proj1 (proj2 (parser_accuracy_rule Lab.decimal
                  [Lab.instruction_event; Lab.answered_event 3 3 "y";
                   Lab.timed_out_event 4 5; Lab.answered_event 3 4 "y"]
                  [mkObservation 3 3 1; mkObservation 3 4 0]
                  eq_refl))).
Defined.

(** ** The design space *)

Lemma grid_pool_list_prod (a b : list Z) : grid_pool a b = list_prod a b.
Proof.
  unfold grid_pool. induction a as [|x a IH]; simpl; [reflexivity|].
  rewrite IH. reflexivity.
Qed.

Lemma linspace_1_100 : linspace 1 100 100 = map Z.of_nat (seq 1 100).
Proof. vm_compute. reflexivity. Qed.

Lemma In_linspace_1_100 (x : Z) : In x (linspace 1 100 100) <-> 1 <= x <= 100.
Proof.
  rewrite linspace_1_100, in_map_iff. split.
  - intros (n & <- & Hn). apply in_seq in Hn. lia.
  - intros Hx. exists (Z.to_nat x). split; [lia|]. apply in_seq. lia.
Qed.

Lemma In_design_space (a b : list Z) (l r : Z) :
  In (l, r) (design_space a b) <-> In l a /\ In r b /\ l <> r.
Proof.
  unfold design_space, remove_equal_dots, dots_left, dots_right.
  rewrite filter_In, grid_pool_list_prod, in_prod_iff. simpl.
  rewrite negb_true_iff, Z.eqb_neq. tauto.
Qed.

(** C9: the design space is the cross-product of the allowed values, first
    variable varying slowest, without the rows the filter rejects; for
    [{1,2}] and [{1,2}] it is the two rows (1,2), (2,1); the program's design
    space is the 100 x 100 grid over [dots_left], [dots_right] without the
    100 rows whose two counts are equal. *)
Theorem design_space_is_filtered_grid :
  (forall a b,
     design_space a b =
     filter (fun c => negb (Z.eqb (fst c) (snd c))) (list_prod a b)) /\
  design_space [1; 2] [1; 2] = [(1, 2); (2, 1)] /\
  allowed_conditions =
    design_space (map Z.of_nat (seq 1 100)) (map Z.of_nat (seq 1 100)) /\
  Z.of_nat (List.length (grid_pool (linspace 1 100 100)
                                     (linspace 1 100 100))) = 10000 /\
  Z.of_nat (List.length allowed_conditions) = 9900 /\
  (forall l r,
     In (l, r) allowed_conditions <->
     1 <= l <= 100 /\ 1 <= r <= 100 /\ l <> r).
Proof.
  split.
  { intros a b. unfold design_space, remove_equal_dots.
    rewrite grid_pool_list_prod. reflexivity. }
  split; [reflexivity|].
  split.
  { unfold allowed_conditions. rewrite linspace_1_100. reflexivity. }
  split; [vm_compute; reflexivity|].
  split; [vm_compute; reflexivity|].
  intros l r. unfold allowed_conditions.
  rewrite In_design_space, !In_linspace_1_100. tauto.
Qed.

(** ** What each stage does to the container *)

Section StageFacts.

Context {World Model : Type}.
Variable C : collaborators World Model.

Lemma merge_empty_delta (s : State Model) : merge s empty_delta = s.
Proof. destruct s; reflexivity. Qed.

Lemma theorist_on_state_empty (s : State Model) (w : World) :
  none_or_empty (experiment_data s) = true ->
  theorist_on_state C s w = Ok (s, w).
Proof.
  intros He. unfold theorist_on_state, on_state, theorist, bind.
  rewrite He. simpl. rewrite merge_empty_delta. reflexivity.
Qed.

Lemma theorist_on_state_fits (s s' : State Model) (w w' : World) :
  none_or_empty (experiment_data s) = false ->
  theorist_on_state C s w = Ok (s', w') ->
  exists m_nuts m_bms m_lr,
    fit_families C (experiment_data s) w = Ok ([m_nuts; m_bms; m_lr], w') /\
    s' = mkState (conditions s) (experiment_data s)
                 (models s ++ [m_nuts; m_bms; m_lr]).
Proof.
  intros He H. unfold theorist_on_state in H.
  apply on_state_Ok in H. destruct H as (d & Hd & ->).
  unfold theorist in Hd. rewrite He in Hd.
  invert_comp Hd.
  exists a, a0, a1. split; [|reflexivity].
  unfold fit_families, bind. rewrite Hm, Hm0, Hm1. reflexivity.
Qed.

Lemma theorist_on_state_keeps_data (s s' : State Model) (w w' : World) :
  theorist_on_state C s w = Ok (s', w') ->
  experiment_data s' = experiment_data s /\ conditions s' = conditions s.
Proof.
  intros H. destruct (none_or_empty (experiment_data s)) eqn:He.
  - rewrite theorist_on_state_empty in H by assumption.
    inversion H; subst. auto.
  - destruct (theorist_on_state_fits s s' w w' He H) as (? & ? & ? & _ & ->).
    auto.
Qed.

Lemma runner_on_state_appends (s s' : State Model) (w w' : World) :
  runner_on_state C s w = Ok (s', w') ->
  exists new,
    experiment_data s' = Some (rows_of (experiment_data s) ++ new) /\
    models s' = models s /\ conditions s' = conditions s.
Proof.
  intros H. unfold runner_on_state in H.
  apply on_state_Ok in H. destruct H as (d & Hd & ->).
  unfold runner in Hd. destruct (conditions s) as [rows|] eqn:Hc.
  - invert_comp Hd. exists a1. simpl.
    destruct (experiment_data s); simpl; auto.
  - apply lift_Ok in Hd. destruct Hd. discriminate.
Qed.

Lemma initialize_state_pool (s s' : State Model) allowed k (w w' : World) :
  initialize_state C s allowed k w = Ok (s', w') ->
  exists sampled,
    random_sample C allowed k w = Ok (sampled, w') /\
    s' = mkState (Some sampled) (experiment_data s) (models s).
Proof.
  intros H. unfold initialize_state in H.
  apply on_state_Ok in H. destruct H as (d & Hd & ->).
  unfold initialize in Hd. invert_comp Hd.
  exists a. split; [assumption|]. reflexivity.
Qed.

Lemma experimentalist_on_state_pool (s s' : State Model) allowed to_compare k
    (w w' : World) :
  experimentalist_on_state C s allowed to_compare k w = Ok (s', w') ->
  exists chosen,
    pick_conditions C allowed (existing_conditions (experiment_data s))
                    to_compare k w = Ok (chosen, w') /\
    s' = mkState (Some chosen) (experiment_data s) (models s).
Proof.
  intros H. unfold experimentalist_on_state in H.
  apply on_state_Ok in H. destruct H as (d & Hd & ->).
  unfold experimentalist in Hd. invert_comp Hd.
  exists a. split; [assumption|]. reflexivity.
Qed.

Lemma apply_stage_effect (c : other_stage) (s s' : State Model) (w w' : World) :
  apply_stage C c s w = Ok (s', w') ->
  models s' = models s /\
  exists new,
    rows_of (experiment_data s') = rows_of (experiment_data s) ++ new.
Proof.
  destruct c as [allowed k| |allowed to_compare k]; simpl; intros H.
  - apply initialize_state_pool in H. destruct H as (? & _ & ->). simpl.
    split; [reflexivity|]. exists []. rewrite app_nil_r. reflexivity.
  - apply runner_on_state_appends in H.
    destruct H as (new & Hd & Hm & _). split; [assumption|].
    exists new. rewrite Hd. reflexivity.
  - apply experimentalist_on_state_pool in H. destruct H as (? & _ & ->).
    simpl. split; [reflexivity|]. exists []. rewrite app_nil_r. reflexivity.
Qed.

End StageFacts.

(** ** Model history *)

Lemma none_or_empty_rows {A} (t : option (list A)) :
  none_or_empty t = false <-> rows_of t <> [].
Proof.
  destruct t as [[|x l]|]; simpl; split; intros H; congruence.
Qed.

Lemma index_from_end_app {A} (p l : list A) (k : nat) :
  (k <= List.length l)%nat ->
  index_from_end (p ++ l) k = index_from_end l k.
Proof.
  intros Hk. unfold index_from_end. rewrite length_app.
  destruct (Nat.leb_spec k (List.length p + List.length l)); [|lia].
  destruct (Nat.leb_spec k (List.length l)); [|lia].
  rewrite nth_error_app2 by lia.
  replace (List.length p + List.length l - k - List.length p)%nat
    with (List.length l - k)%nat by lia.
  reflexivity.
Qed.

Lemma models_to_compare_last_three {A} (p : list A) (a b c : A) :
  models_to_compare (p ++ [a; b; c]) = Ok [c; b; a].
Proof.
  unfold models_to_compare.
  rewrite !index_from_end_app by (simpl; lia). reflexivity.
Qed.

Lemma skipn_last_three {A} (p : list A) (a b c : A) :
  skipn (List.length (p ++ [a; b; c]) - 3) (p ++ [a; b; c]) = [a; b; c].
Proof.
  rewrite length_app. simpl.
  replace (List.length p + 3 - 3)%nat with (List.length p + 0)%nat by lia.
  rewrite skipn_app, Nat.add_0_r, skipn_all.
  replace (List.length p - List.length p)%nat with 0%nat by lia.
  reflexivity.
Qed.

Section History.

Context {World Model : Type}.
Variable C : collaborators World Model.

Lemma fit_families_shape (data : option (list observation)) (w w' : World)
    (out : list Model) :
  fit_families C data w = Ok (out, w') ->
  exists m_nuts m_bms m_lr w1 w2,
    nuts_fit C (map iv_columns (rows_of data))
               (map dv_columns (rows_of data)) w = Ok (m_nuts, w1) /\
    bms_fit C (map iv_columns (rows_of data))
              (map dv_columns (rows_of data)) w1 = Ok (m_bms, w2) /\
    LogisticRegressor_fit C (map iv_columns (rows_of data))
                            (map dv_columns (rows_of data)) w2
      = Ok (m_lr, w') /\
    out = [m_nuts; m_bms; m_lr].
Proof.
  unfold fit_families. intros H. invert_comp H.
  do 5 eexists. repeat split; eassumption.
Qed.

Lemma run_invariant (fits : list (list Model)) (s : State Model) (w : World) :
  run C fits s w ->
  models s = List.concat fits /\
  Forall (fun out => List.length out = 3%nat) fits /\
  (fits <> [] -> none_or_empty (experiment_data s) = false).
Proof.
  induction 1 as [w | fits s w c s' w' Hrun IH Hstep
                    | fits s w s' w' out Hrun IH Hne Hout Hstep].
  - repeat split; auto. congruence.
  - destruct IH as (Hm & Hlen & Hdata).
    destruct (apply_stage_effect C c s s' w w' Hstep) as (Hm' & new & Hnew).
    repeat split; [congruence | assumption |].
    intros Hf. apply none_or_empty_rows. rewrite Hnew.
    specialize (Hdata Hf). apply none_or_empty_rows in Hdata.
    destruct (rows_of (experiment_data s)); simpl; congruence.
  - destruct IH as (Hm & Hlen & _).
    destruct (theorist_on_state_fits C s s' w w' Hne Hstep)
      as (mn & mb & ml & Hfam & ->).
    rewrite Hfam in Hout. inversion Hout; subst out. simpl.
    repeat split.
    + rewrite concat_app, Hm. simpl. reflexivity.
    + apply Forall_app. split; [assumption|]. repeat constructor.
    + intros _. assumption.
Qed.

(** C1: in a run whose fit stages all see a non-empty observation table,
    after [n] completed fit stages the model history has [n * 3] entries; it
    is the concatenation of the fit stages' outputs, oldest first, each
    listed in the order Nuts, BMS, LogisticRegression, so its last three
    entries are the output of the most recent fit stage; a later stage
    other than the fit stage leaves the history as it is, and a later fit
    stage appends the handles returned by the Nuts, BMS and
    LogisticRegression fitters, in this order, so no entry is reordered or
    removed. *)
Theorem model_history_after_fits (fits : list (list Model))
    (s : State Model) (w : World) :
  run C fits s w ->
  List.length (models s) = (List.length fits * 3)%nat /\
  models s = List.concat fits /\
  (forall earlier last,
     fits = earlier ++ [last] ->
     skipn (List.length (models s) - 3) (models s) = last /\
     exists m_nuts m_bms m_lr, last = [m_nuts; m_bms; m_lr]) /\
  (forall c s' w',
     apply_stage C c s w = Ok (s', w') -> models s' = models s) /\
  (forall s' w',
     theorist_on_state C s w = Ok (s', w') ->
     if none_or_empty (experiment_data s) then models s' = models s
     else
       exists m_nuts m_bms m_lr w1 w2,
         nuts_fit C (map iv_columns (rows_of (experiment_data s)))
                    (map dv_columns (rows_of (experiment_data s))) w
           = Ok (m_nuts, w1) /\
         bms_fit C (map iv_columns (rows_of (experiment_data s)))
                   (map dv_columns (rows_of (experiment_data s))) w1
           = Ok (m_bms, w2) /\
         LogisticRegressor_fit C
             (map iv_columns (rows_of (experiment_data s)))
             (map dv_columns (rows_of (experiment_data s))) w2
           = Ok (m_lr, w') /\
         models s' = models s ++ [m_nuts; m_bms; m_lr]).
Proof.
  intros Hrun. destruct (run_invariant fits s w Hrun) as (Hm & Hlen & _).
  split.
  { rewrite Hm. clear Hm Hrun. induction Hlen as [|out fits Hout _ IH].
    - reflexivity.
    - simpl. rewrite length_app, IH, Hout. lia. }
  split; [assumption|].
  split.
  { intros earlier last ->. rewrite Hm, concat_app. simpl.
    rewrite app_nil_r.
    apply Forall_app in Hlen. destruct Hlen as [_ Hlast].
    inversion Hlast as [|? ? Hl _]; subst.
    destruct last as [|a [|b [|c [|? ?]]]]; try discriminate.
    split; [apply skipn_last_three | eauto]. }
  split.
  { intros c s' w' Hstep. apply (apply_stage_effect C c s s' w w' Hstep). }
  intros s' w' Hstep.
  destruct (none_or_empty (experiment_data s)) eqn:He.
  - rewrite theorist_on_state_empty in Hstep by assumption.
    inversion Hstep; subst. reflexivity.
  - destruct (theorist_on_state_fits C s s' w w' He Hstep)
      as (mn & mb & ml & Hfam & ->).
    apply fit_families_shape in Hfam.
    destruct Hfam as (mn' & mb' & ml' & w1 & w2 & Hn & Hb & Hl & E).
    inversion E; subst mn' mb' ml'.
    exists mn, mb, ml, w1, w2. simpl. auto.
Qed.

(** C6: on a container whose observation table is unset or empty the fit
    stage returns the empty delta without raising and without calling a
    fitter, and the wrapped stage hands back the container it was given, so
    the model history is the one it had. *)
Theorem fit_on_empty_table_is_noop (s : State Model) (w : World) :
  none_or_empty (experiment_data s) = true ->
  theorist C (experiment_data s) w = Ok (empty_delta, w) /\
  theorist_on_state C s w = Ok (s, w) /\
  forall s' w',
    theorist_on_state C s w = Ok (s', w') -> models s' = models s.
Proof.
  intros He. split.
  { unfold theorist. rewrite He. reflexivity. }
  split; [apply theorist_on_state_empty; assumption|].
  intros s' w' H. rewrite theorist_on_state_empty in H by assumption.
  inversion H. reflexivity.
Qed.

End History.

(** ** The scheduler *)

Section Scheduler.

Context {World Model : Type}.
Variable C : collaborators World Model.

Lemma cycle_Ok (s s3 : State Model) (w w3 : World) :
  cycle C s w = Ok (s3, w3) ->
  exists s1 w1 s2 w2 to_compare,
    runner_on_state C s w = Ok (s1, w1) /\
    theorist_on_state C s1 w1 = Ok (s2, w2) /\
    models_to_compare (models s2) = Ok to_compare /\
    experimentalist_on_state C s2 allowed_conditions to_compare
                             num_conditions_per_cycle w2 = Ok (s3, w3).
Proof.
  unfold cycle. intros H.
  apply bind_Ok in H. destruct H as (s1 & w1 & H1 & H).
  apply bind_Ok in H. destruct H as (s2 & w2 & H2 & H).
  apply bind_Ok in H. destruct H as (tc & w2' & Htc & H).
  apply lift_Ok in Htc. destruct Htc as [Htc ->].
  exists s1, w1, s2, w2, tc. auto.
Qed.

(** Inside a run, when the scheduler gets a list out of line 205 after the
    execution and fit stages, the fit stage saw a non-empty table and the
    list holds the three handles of that fit, newest first. *)
Lemma fit_handover (fits : list (list Model)) (s s1 s2 : State Model)
    (w w1 w2 : World) (to_compare : list Model) :
  run C fits s w ->
  runner_on_state C s w = Ok (s1, w1) ->
  theorist_on_state C s1 w1 = Ok (s2, w2) ->
  models_to_compare (models s2) = Ok to_compare ->
  exists m_nuts m_bms m_lr,
    none_or_empty (experiment_data s1) = false /\
    fit_families C (experiment_data s1) w1
      = Ok ([m_nuts; m_bms; m_lr], w2) /\
    models s2 = models s1 ++ [m_nuts; m_bms; m_lr] /\
    to_compare = [m_lr; m_bms; m_nuts] /\
    run C (fits ++ [[m_nuts; m_bms; m_lr]]) s2 w2.
Proof.
  intros Hrun Hexec Hfit Htc.
  assert (run C fits s1 w1) as Hrun1.
  { apply (run_other C fits s w Execute s1 w1 Hrun). exact Hexec. }
  destruct (none_or_empty (experiment_data s1)) eqn:He.
  - (* nothing was fitted: the history is empty and line 205 raises *)
    exfalso.
    rewrite theorist_on_state_empty in Hfit by assumption.
    inversion Hfit; subst s2 w2.
    destruct (run_invariant C fits s1 w1 Hrun1) as (Hm & _ & Hdata).
    destruct fits as [|out fits].
    + rewrite Hm in Htc. discriminate.
    + rewrite Hdata in He by discriminate. discriminate.
  - destruct (theorist_on_state_fits C s1 s2 w1 w2 He Hfit)
      as (mn & mb & ml & Hfam & Hs2).
    assert (models s2 = models s1 ++ [mn; mb; ml]) as Hm2.
    { rewrite Hs2. reflexivity. }
    rewrite Hm2, models_to_compare_last_three in Htc.
    inversion Htc; subst to_compare.
    exists mn, mb, ml.
    repeat split; try assumption.
    apply (run_fit C fits s1 w1 s2 w2 [mn; mb; ml]); assumption.
Qed.

Lemma cycle_stages (fits : list (list Model)) (s s3 : State Model)
    (w w3 : World) :
  run C fits s w ->
  cycle C s w = Ok (s3, w3) ->
  exists m_nuts m_bms m_lr, run C (fits ++ [[m_nuts; m_bms; m_lr]]) s3 w3.
Proof.
  intros Hrun H.
  apply cycle_Ok in H.
  destruct H as (s1 & w1 & s2 & w2 & tc & Hexec & Hfit & Htc & Hsel).
  destruct (fit_handover fits s s1 s2 w w1 w2 tc Hrun Hexec Hfit Htc)
    as (mn & mb & ml & _ & _ & _ & -> & Hrun2).
  exists mn, mb, ml.
  apply (run_other C _ s2 w2
                   (Select allowed_conditions [ml; mb; mn]
                           num_conditions_per_cycle) s3 w3 Hrun2).
  exact Hsel.
Qed.

Lemma loop_run (n : nat) :
  forall fits (s s' : State Model) (w w' : World),
    run C fits s w ->
    loop C n s w = Ok (s', w') ->
    exists later,
      List.length later = n /\ run C (fits ++ later) s' w'.
Proof.
  induction n as [|n IH]; simpl; intros fits s s' w w' Hrun H.
  - apply ret_Ok in H. destruct H; subst.
    exists []. rewrite app_nil_r. auto.
  - apply bind_Ok in H. destruct H as (s3 & w3 & Hc & H).
    destruct (cycle_stages fits s s3 w w3 Hrun Hc)
      as (mn & mb & ml & Hrun3).
    destruct (IH _ _ _ _ _ Hrun3 H) as (later & Hlen & Hrun').
    exists ([mn; mb; ml] :: later). split; [simpl; lia|].
    rewrite <- app_assoc in Hrun'. exact Hrun'.
Qed.

(** A completed workflow of [n] cycles is a run with [n] fit stages. *)
Lemma workflow_run (n : nat) (s : State Model) (w w' : World) :
  workflow_for C n w = Ok (s, w') ->
  exists fits, List.length fits = n /\ run C fits s w'.
Proof.
  unfold workflow_for. intros H.
  apply bind_Ok in H. destruct H as (s0 & w0 & Hinit & H).
  assert (run C [] s0 w0) as Hrun0.
  { apply (run_other C [] initial_state w
                     (Bootstrap allowed_conditions num_conditions_per_cycle)
                     s0 w0 (run_start C w)).
    exact Hinit. }
  destruct (loop_run n [] s0 s w0 w' Hrun0 H) as (later & Hlen & Hrun).
  exists later. auto.
Qed.

Lemma loop_snoc (n : nat) :
  forall (s s' : State Model) (w w' : World),
    loop C (S n) s w = Ok (s', w') ->
    exists sn wn,
      loop C n s w = Ok (sn, wn) /\ cycle C sn wn = Ok (s', w').
Proof.
  induction n as [|n IH]; intros s s' w w' H.
  - simpl in H. apply bind_Ok in H. destruct H as (s1 & w1 & Hc & H).
    apply ret_Ok in H. destruct H; subst.
    exists s, w. split; [reflexivity | assumption].
  - change (loop C (S (S n)) s w)
      with (bind (cycle C s) (fun st => loop C (S n) st) w) in H.
    apply bind_Ok in H. destruct H as (s1 & w1 & Hc & H).
    apply IH in H. destruct H as (sn & wn & Hl & Hlast).
    exists sn, wn. split; [|assumption].
    simpl. unfold bind at 1. rewrite Hc. exact Hl.
Qed.

Lemma workflow_for_snoc (n : nat) (s' : State Model) (w w' : World) :
  workflow_for C (S n) w = Ok (s', w') ->
  exists sn wn,
    workflow_for C n w = Ok (sn, wn) /\ cycle C sn wn = Ok (s', w').
Proof.
  unfold workflow_for. intros H.
  apply bind_Ok in H. destruct H as (s0 & w0 & Hinit & H).
  apply loop_snoc in H. destruct H as (sn & wn & Hl & Hc).
  exists sn, wn. split; [|assumption].
  unfold bind. rewrite Hinit. exact Hl.
Qed.

Lemma cycle_appends (s s' : State Model) (w w' : World) :
  cycle C s w = Ok (s', w') ->
  exists new,
    experiment_data s' = Some (rows_of (experiment_data s) ++ new).
Proof.
  intros H. apply cycle_Ok in H.
  destruct H as (s1 & w1 & s2 & w2 & tc & Hexec & Hfit & _ & Hsel).
  apply runner_on_state_appends in Hexec. destruct Hexec as (new & Hd1 & _).
  apply theorist_on_state_keeps_data in Hfit. destruct Hfit as [Hd2 _].
  apply experimentalist_on_state_pool in Hsel. destruct Hsel as (? & _ & ->).
  exists new. simpl. congruence.
Qed.

End Scheduler.

(** ** De-duplication *)

Lemma condition_eqb_eq (c d : condition) : condition_eqb c d = true <-> c = d.
Proof.
  destruct c as [a b], d as [a' b']. unfold condition_eqb. simpl.
  rewrite andb_true_iff, !Z.eqb_eq. split.
  - intros [-> ->]. reflexivity.
  - intros H. inversion H. auto.
Qed.

Lemma mem_In (c : condition) (t : list condition) : mem c t = true <-> In c t.
Proof.
  unfold mem. rewrite existsb_exists. split.
  - intros (d & Hd & E). apply condition_eqb_eq in E. subst. assumption.
  - intros H. exists c. split; [assumption|]. apply condition_eqb_eq.
    reflexivity.
Qed.

Lemma In_drop_duplicates_from (t : list condition) :
  forall seen c,
    In c (drop_duplicates_from seen t) <-> In c t /\ ~ In c seen.
Proof.
  induction t as [|r t IH]; simpl; intros seen c; [tauto|].
  destruct (mem r seen) eqn:Hr.
  - apply mem_In in Hr. rewrite IH. split.
    + intros [H1 H2]. auto.
    + intros [[->|H1] H2]; [contradiction|auto].
  - assert (~ In r seen) as Hr'.
    { intros H. apply mem_In in H. congruence. }
    simpl. rewrite IH. simpl. split.
    + intros [->|[H1 H2]]; [auto|]. split; [auto|]. intros H. apply H2. auto.
    + intros [[->|H1] H2]; [auto|].
      destruct (condition_eqb r c) eqn:E.
      * apply condition_eqb_eq in E. auto.
      * right. split; [assumption|]. intros [->|H]; [|contradiction].
        assert (condition_eqb c c = true) by (apply condition_eqb_eq; auto).
        congruence.
Qed.

Lemma NoDup_drop_duplicates_from (t : list condition) :
  forall seen, NoDup (drop_duplicates_from seen t).
Proof.
  induction t as [|r t IH]; simpl; intros seen; [constructor|].
  destruct (mem r seen); [apply IH|].
  constructor; [|apply IH].
  rewrite In_drop_duplicates_from. simpl. tauto.
Qed.

Lemma In_drop_duplicates (t : list condition) (c : condition) :
  In c (drop_duplicates t) <-> In c t.
Proof. unfold drop_duplicates. rewrite In_drop_duplicates_from. simpl. tauto. Qed.

(** ** Properties of the loop *)

Section Loop.

Context {World Model : Type}.
Variable C : collaborators World Model.

(** C2 (as amended): in every cycle of the workflow in which the scheduler
    gets to hand a list of models to the selection stage, the fit stage just
    before it appended three handles (Nuts, BMS, LogisticRegression, in this
    order), and the list consists of exactly these three handles, newest
    first: LogisticRegression, BMS, Nuts.  The cycle then is the selection
    stage run on this list. *)
Theorem selection_receives_latest_fit_newest_first (k : nat)
    (s s1 s2 : State Model) (w wk w1 w2 : World) (to_compare : list Model) :
  workflow_for C k w = Ok (s, wk) ->
  runner_on_state C s wk = Ok (s1, w1) ->
  theorist_on_state C s1 w1 = Ok (s2, w2) ->
  models_to_compare (models s2) = Ok to_compare ->
  exists m_nuts m_bms m_lr,
    fit_families C (experiment_data s1) w1
      = Ok ([m_nuts; m_bms; m_lr], w2) /\
    models s2 = models s1 ++ [m_nuts; m_bms; m_lr] /\
    to_compare = [m_lr; m_bms; m_nuts] /\
    cycle C s wk =
    experimentalist_on_state C s2 allowed_conditions [m_lr; m_bms; m_nuts]
                             num_conditions_per_cycle w2.
Proof.
  intros Hk Hexec Hfit Htc.
  destruct (workflow_run C k s w wk Hk) as (fits & _ & Hrun).
  destruct (fit_handover C fits s s1 s2 wk w1 w2 to_compare
                         Hrun Hexec Hfit Htc)
    as (mn & mb & ml & _ & Hfam & Hm & -> & _).
  exists mn, mb, ml.
  repeat split; try assumption.
  unfold cycle, bind at 1. rewrite Hexec.
  unfold bind at 1. rewrite Hfit.
  unfold bind, lift. rewrite Htc. reflexivity.
Qed.

(** C3 (as amended): on a container with a non-empty observation table the
    selection stage hands the observed independent-variable combinations,
    each once, to the sampler and takes the rows the sampler returns as the
    condition pool; if the sampler returns none of the combinations it was
    handed, no row of the pool has a combination of the observation
    table. *)
Theorem selection_pool_avoids_observed_when_sampler_does
    (s s' : State Model) (allowed : list condition)
    (to_compare : list Model) (k : nat) (w w' : World) :
  none_or_empty (experiment_data s) = false ->
  experimentalist_on_state C s allowed to_compare k w = Ok (s', w') ->
  exists existing chosen,
    existing = drop_duplicates (map iv_columns (rows_of (experiment_data s))) /\
    NoDup existing /\
    (forall c,
       In c existing <-> In c (map iv_columns (rows_of (experiment_data s)))) /\
    pick_conditions C allowed existing to_compare k w = Ok (chosen, w') /\
    conditions s' = Some chosen /\
    ((forall c, In c chosen -> ~ In c existing) ->
     forall c,
       In c chosen ->
       ~ In c (map iv_columns (rows_of (experiment_data s')))).
Proof.
  intros He H.
  apply experimentalist_on_state_pool in H. destruct H as (chosen & Hp & ->).
  unfold existing_conditions in Hp. rewrite He in Hp.
  exists (drop_duplicates (map iv_columns (rows_of (experiment_data s)))),
         chosen.
  split; [reflexivity|].
  split; [apply NoDup_drop_duplicates_from|].
  split; [intros c; apply In_drop_duplicates|].
  split; [assumption|].
  split; [reflexivity|].
  simpl. intros Hs c Hc Hobs.
  apply (Hs c Hc). apply In_drop_duplicates. assumption.
Qed.

(** C4: the observation table after cycle [i + 1] is the table after cycle
    [i] followed by the rows of cycle [i + 1]: it is at least as long and
    its first rows are the earlier table, row for row. *)
Theorem observation_table_is_append_only (i : nat)
    (si sj : State Model) (w wi wj : World) :
  workflow_for C i w = Ok (si, wi) ->
  workflow_for C (S i) w = Ok (sj, wj) ->
  (List.length (rows_of (experiment_data si))
   <= List.length (rows_of (experiment_data sj)))%nat /\
  firstn (List.length (rows_of (experiment_data si)))
         (rows_of (experiment_data sj))
    = rows_of (experiment_data si) /\
  exists new,
    rows_of (experiment_data sj) = rows_of (experiment_data si) ++ new.
Proof.
  intros Hi Hj.
  apply workflow_for_snoc in Hj. destruct Hj as (sn & wn & Hn & Hc).
  rewrite Hi in Hn. inversion Hn; subst sn wn.
  apply cycle_appends in Hc. destruct Hc as (new & ->). simpl.
  split; [rewrite length_app; lia|].
  split; [|eauto].
  rewrite firstn_app, firstn_all, Nat.sub_diag. simpl.
  apply app_nil_r.
Qed.

(** C5: after a bootstrap or a selection stage the condition pool is
    exactly the table the sampler returned in that invocation, whatever the
    pool held before. *)
Theorem condition_pool_is_sampler_output (c : other_stage)
    (call : M World (list condition)) (s s' : State Model) (w w' : World) :
  sampler_call C c s = Some call ->
  apply_stage C c s w = Ok (s', w') ->
  exists rows, call w = Ok (rows, w') /\ conditions s' = Some rows.
Proof.
  destruct c as [allowed k| |allowed to_compare k]; simpl;
    intros Hcall H; inversion Hcall; subst call; clear Hcall.
  - apply initialize_state_pool in H. destruct H as (rows & Hr & ->).
    exists rows. auto.
  - apply experimentalist_on_state_pool in H. destruct H as (rows & Hr & ->).
    exists rows. split; [|reflexivity].
    unfold pick_conditions in Hr.
    destruct (condition_sampler C) as [f|g]; [exact Hr|].
    destruct (existing_conditions (experiment_data s)); exact Hr.
Qed.

(** What one execution stage adds: the tables parsed from the blobs that
    came back, in order, however many blobs there are. *)
Lemma preprocess_concat (data_raw : list string) :
  forall acc tbl,
    preprocess C acc data_raw = Ok tbl ->
    exists tables,
      Forall2 (fun item t =>
                 result_bind (json_loads_trials C item)
                             (trial_list_to_experiment_data (builtin_int C))
                 = Ok t)
              data_raw tables /\
      tbl = acc ++ List.concat tables.
Proof.
  induction data_raw as [|item rest IH]; simpl; intros acc tbl H.
  - inversion H. exists []. simpl. rewrite app_nil_r. auto.
  - apply result_bind_Ok in H. destruct H as (lst & Hl & H).
    apply result_bind_Ok in H. destruct H as (df & Hdf & H).
    apply IH in H. destruct H as (tables & Ht & ->).
    exists (df :: tables). split.
    + constructor; [|assumption]. rewrite Hl. simpl. assumption.
    + simpl. rewrite app_assoc. reflexivity.
Qed.

Lemma runner_on_state_rows (s s' : State Model) (w w' : World) :
  runner_on_state C s w = Ok (s', w') ->
  exists requested w0 data_raw tables,
    experiment_runner C requested w0 = Ok (data_raw, w') /\
    map fst requested = rows_of (conditions s) /\
    Forall2 (fun item t =>
               result_bind (json_loads_trials C item)
                           (trial_list_to_experiment_data (builtin_int C))
               = Ok t)
            data_raw tables /\
    rows_of (experiment_data s')
      = rows_of (experiment_data s) ++ List.concat tables.
Proof.
  intros H. unfold runner_on_state in H.
  apply on_state_Ok in H. destruct H as (d & Hd & ->).
  unfold runner in Hd. destruct (conditions s) as [rows|] eqn:Hc.
  - apply bind_Ok in Hd. destruct Hd as (res & w0 & Hres & Hd).
    apply bind_Ok in Hd. destruct Hd as (data_raw & w1 & Hraw & Hd).
    apply bind_Ok in Hd. destruct Hd as (tbl & w2 & Htbl & Hd).
    apply lift_Ok in Htbl. destruct Htbl as [Htbl ->].
    apply ret_Ok in Hd. destruct Hd as [-> ->].
    apply preprocess_concat in Htbl. destruct Htbl as (tables & Ht & ->).
    exists (combine rows res), w0, data_raw, tables.
    split; [assumption|]. split.
    + assert (List.length res = List.length rows) as Hlen.
      { clear -Hres. revert res w w0 Hres.
        induction rows as [|c rows IH]; simpl; intros res w w0 H.
        - apply ret_Ok in H. destruct H; subst. reflexivity.
        - apply bind_Ok in H. destruct H as (y & w1 & _ & H).
          apply bind_Ok in H. destruct H as (ys & w2 & Hys & H).
          apply ret_Ok in H. destruct H; subst. simpl.
          f_equal. eapply IH. eassumption. }
      simpl. clear -Hlen. revert res Hlen.
      induction rows as [|c rows IH]; intros [|r res] Hlen;
        simpl in *; try discriminate; [reflexivity|].
      f_equal. apply IH. lia.
    + split; [assumption|]. simpl.
      destruct (experiment_data s); reflexivity.
  - apply lift_Ok in Hd. destruct Hd. discriminate.
Qed.

End Loop.

(** ** The workflow in the laboratory *)

Lemma lab_first_cycle_is_run :
  run (Lab.lab Lab.first_rows) [[Lab.Nuts; Lab.BMS; Lab.LogisticRegression]]
      Lab.fitted [].
Proof.
  apply (run_fit (Lab.lab Lab.first_rows) [] Lab.executed [] Lab.fitted []
                 [Lab.Nuts; Lab.BMS; Lab.LogisticRegression]);
    [| reflexivity | reflexivity | reflexivity].
  apply (run_other (Lab.lab Lab.first_rows) [] Lab.bootstrapped
                   [["answered"]] Execute Lab.executed []);
    [| reflexivity].
  apply (run_other (Lab.lab Lab.first_rows) [] initial_state
                   [["answered"]] (Bootstrap Lab.pool 2) Lab.bootstrapped
                   [["answered"]]);
    [| reflexivity].
  apply run_start.
Defined.

Lemma model_history_after_fits_witness :
  List.length (models Lab.fitted) = 3%nat /\
  skipn (List.length (models Lab.fitted) - 3) (models Lab.fitted)
    = [Lab.Nuts; Lab.BMS; Lab.LogisticRegression].
Proof.
  destruct (model_history_after_fits
              (Lab.lab Lab.first_rows)
              [[Lab.Nuts; Lab.BMS; Lab.LogisticRegression]] Lab.fitted []
              lab_first_cycle_is_run) as (Hlen & _ & Hlast & _).
  split; [exact Hlen|].
  exact (proj1 (Hlast [] [Lab.Nuts; Lab.BMS; Lab.LogisticRegression]
                      eq_refl)).
Defined.

Lemma fit_on_empty_table_is_noop_witness :
  theorist_on_state (Lab.lab Lab.first_rows) Lab.executed_empty []
    = Ok (Lab.executed_empty, []).
Proof.
  exact (proj1 (proj2 (fit_on_empty_table_is_noop
                         (Lab.lab Lab.first_rows) Lab.executed_empty []
                         eq_refl))).
Defined.

Lemma selection_receives_latest_fit_newest_first_witness :
  exists m_nuts m_bms m_lr,
    fit_families (Lab.lab Lab.first_rows) (experiment_data Lab.executed) []
      = Ok ([m_nuts; m_bms; m_lr], []) /\
    models Lab.fitted = models Lab.executed ++ [m_nuts; m_bms; m_lr] /\
    [Lab.LogisticRegression; Lab.BMS; Lab.Nuts] = [m_lr; m_bms; m_nuts] /\
    cycle (Lab.lab Lab.first_rows) Lab.bootstrapped [["answered"]] =
    experimentalist_on_state (Lab.lab Lab.first_rows) Lab.fitted
                             allowed_conditions [m_lr; m_bms; m_nuts]
                             num_conditions_per_cycle [].
Proof.
  apply (selection_receives_latest_fit_newest_first
           (Lab.lab Lab.first_rows) 0 Lab.bootstrapped Lab.executed
           Lab.fitted [["answered"]] [["answered"]] [] []
           [Lab.LogisticRegression; Lab.BMS; Lab.Nuts]).
  - vm_compute. reflexivity.
  - reflexivity.
  - reflexivity.
  - reflexivity.
Defined.

(** C2, the claim as stated fails: in the first cycle the fit stage appends
    Nuts, BMS, LogisticRegression, and the scheduler hands the selection
    stage LogisticRegression, BMS, Nuts. *)
Lemma selection_does_not_receive_family_order :
  theorist_on_state (Lab.lab Lab.first_rows) Lab.executed [] = Ok (Lab.fitted, []) /\
  fit_families (Lab.lab Lab.first_rows) (experiment_data Lab.executed) []
    = Ok ([Lab.Nuts; Lab.BMS; Lab.LogisticRegression], []) /\
  skipn (List.length (models Lab.fitted) - 3) (models Lab.fitted)
    = [Lab.Nuts; Lab.BMS; Lab.LogisticRegression] /\
  models_to_compare (models Lab.fitted)
    = Ok [Lab.LogisticRegression; Lab.BMS; Lab.Nuts] /\
  models_to_compare (models Lab.fitted)
    <> Ok [Lab.Nuts; Lab.BMS; Lab.LogisticRegression].
Proof.
  repeat split; try reflexivity.
  vm_compute. discriminate.
Qed.

Lemma selection_pool_avoids_observed_when_sampler_does_witness :
  exists chosen,
    conditions Lab.reselected = Some chosen /\
    forall c,
      In c chosen ->
      ~ In c (map iv_columns (rows_of (experiment_data Lab.reselected))).
Proof.
  destruct (selection_pool_avoids_observed_when_sampler_does
              (Lab.lab Lab.novel_rows) Lab.fitted Lab.reselected
              allowed_conditions
              [Lab.LogisticRegression; Lab.BMS; Lab.Nuts]
              num_conditions_per_cycle [] [])
    as (existing & chosen & Hex & _ & _ & _ & Hpool & Hfree).
  - reflexivity.
  - vm_compute. reflexivity.
  - exists chosen. split; [exact Hpool|].
    apply Hfree. subst existing. inversion Hpool; subst chosen.
    simpl. intros c [<-|[<-|[]]] [E|[]]; discriminate.
Defined.

(** C3, the claim as stated fails: with a sampler bound that does not look
    at the reference rows, the selection stage on a container that has
    observed (1, 2) produces a pool whose first row is (1, 2). *)
Lemma selection_pool_repeats_observed_row :
  none_or_empty (experiment_data Lab.fitted) = false /\
  experimentalist_on_state (Lab.lab Lab.first_rows) Lab.fitted
                           allowed_conditions
                           [Lab.LogisticRegression; Lab.BMS; Lab.Nuts]
                           num_conditions_per_cycle []
    = Ok (Lab.fitted, []) /\
  In (1, 2) (rows_of (conditions Lab.fitted)) /\
  In (1, 2) (map iv_columns (rows_of (experiment_data Lab.fitted))).
Proof.
  split; [reflexivity|].
  split; [vm_compute; reflexivity|].
  split; simpl; auto.
Qed.

Lemma observation_table_is_append_only_witness :
  exists si sj,
    workflow_for (Lab.lab Lab.first_rows) 1 Lab.two_then_one
      = Ok (si, [["answered"]]) /\
    workflow_for (Lab.lab Lab.first_rows) 2 Lab.two_then_one = Ok (sj, []) /\
    List.length (rows_of (experiment_data si)) = 2%nat /\
    List.length (rows_of (experiment_data sj)) = 3%nat /\
    firstn (List.length (rows_of (experiment_data si)))
           (rows_of (experiment_data sj))
      = rows_of (experiment_data si).
Proof.
  exists (mkState (Some Lab.pool) (Some (Lab.observed ++ Lab.observed))
                  [Lab.Nuts; Lab.BMS; Lab.LogisticRegression]).
  exists (mkState (Some Lab.pool)
                  (Some (Lab.observed ++ Lab.observed ++ Lab.observed))
                  [Lab.Nuts; Lab.BMS; Lab.LogisticRegression;
                   Lab.Nuts; Lab.BMS; Lab.LogisticRegression]).
  split; [vm_compute; reflexivity|].
  split; [vm_compute; reflexivity|].
  split; [reflexivity|].
  split; [reflexivity|].
  refine (proj1 (proj2 (observation_table_is_append_only
                          (Lab.lab Lab.first_rows) 1 _ _ Lab.two_then_one
                          [["answered"]] [] _ _))).
  - vm_compute. reflexivity.
  - vm_compute. reflexivity.
Defined.

Lemma condition_pool_is_sampler_output_witness :
  exists call rows,
    sampler_call (Lab.lab Lab.novel_rows)
                 (Select allowed_conditions
                         [Lab.LogisticRegression; Lab.BMS; Lab.Nuts]
                         num_conditions_per_cycle)
                 Lab.fitted = Some call /\
    call [] = Ok (rows, []) /\
    conditions Lab.reselected = Some rows.
Proof.
  eexists.
  destruct (condition_pool_is_sampler_output
              (Lab.lab Lab.novel_rows)
              (Select allowed_conditions
                      [Lab.LogisticRegression; Lab.BMS; Lab.Nuts]
                      num_conditions_per_cycle)
              _ Lab.fitted Lab.reselected [] [] eq_refl)
    as (rows & Hcall & Hpool).
  - vm_compute. reflexivity.
  - exists rows. split; [reflexivity|]. split; [exact Hcall | exact Hpool].
Defined.

(** C7, the run on an execution engine that hands back nothing for the two
    requested conditions: the execution stage leaves an empty observation
    table, the fit stage does nothing, and the scheduler raises [IndexError]
    when it indexes the empty model history at line 205.  The same happens
    when one blob comes back in which no display was answered. *)
Theorem workflow_raises_when_nothing_is_delivered :
  initialize_state (Lab.lab Lab.first_rows) initial_state allowed_conditions
                   num_conditions_per_cycle []
    = Ok (Lab.bootstrapped, []) /\
  runner_on_state (Lab.lab Lab.first_rows) Lab.bootstrapped []
    = Ok (Lab.executed_empty, []) /\
  theorist_on_state (Lab.lab Lab.first_rows) Lab.executed_empty []
    = Ok (Lab.executed_empty, []) /\
  models_to_compare (models Lab.executed_empty) = Raise IndexError /\
  workflow (Lab.lab Lab.first_rows) [] = Raise IndexError /\
  workflow (Lab.lab Lab.first_rows) [["silent"]] = Raise IndexError.
Proof.
  repeat split; vm_compute; reflexivity.
Qed.

(** * Further properties *)

(** ** The parser, event by event *)

Section ParserEvents.

Variable int_of_str : string -> option Z.

Lemma parse_trial_row (rows : list observation) (t : trial) :
  parse_trial int_of_str (columns_of rows) t =
  result_bind (trial_row int_of_str t) (fun o =>
    Ok (columns_of (match o with
                    | Some r => rows ++ [r]
                    | None => rows
                    end))).
Proof.
  unfold parse_trial, trial_row.
  destruct (getitem (trial_type t)) as [ty|e]; simpl; [|reflexivity].
  destruct (negb (eq_str ty "rok")); [reflexivity|].
  destruct (no_reaction_time t); [reflexivity|].
  destruct (getitem (number_of_oobs t)) as [oobs|e]; simpl; [|reflexivity].
  destruct (subscript oobs 0) as [dl|e]; simpl; [|reflexivity].
  destruct (subscript oobs 1) as [dr|e]; simpl; [|reflexivity].
  destruct (getitem (key_press t)) as [choice|e]; simpl; [|reflexivity].
  destruct (py_int int_of_str dl) as [il|e]; simpl; [|reflexivity].
  destruct (py_int int_of_str dr) as [ir|e]; simpl; [|reflexivity].
  rewrite columns_of_snoc. reflexivity.
Qed.

Lemma parse_loop_rows (ts : list trial) :
  forall rows,
    parse_loop int_of_str (columns_of rows) ts =
    result_bind (trial_rows int_of_str ts)
                (fun tbl => Ok (columns_of (rows ++ tbl))).
Proof.
  induction ts as [|t ts IH]; simpl; intros rows.
  - rewrite app_nil_r. reflexivity.
  - rewrite parse_trial_row.
    destruct (trial_row int_of_str t) as [[r|]|e]; simpl; [| |reflexivity].
    + rewrite IH.
      destruct (trial_rows int_of_str ts) as [tbl|e]; simpl; [|reflexivity].
      rewrite <- app_assoc. reflexivity.
    + rewrite IH. destruct (trial_rows int_of_str ts); reflexivity.
Qed.

Lemma parser_rows (ts : list trial) :
  trial_list_to_experiment_data int_of_str ts = trial_rows int_of_str ts.
Proof.
  unfold trial_list_to_experiment_data.
  change empty_results with (columns_of []).
  rewrite parse_loop_rows.
  destruct (trial_rows int_of_str ts) as [tbl|e]; simpl; [|reflexivity].
  apply DataFrame_columns.
Qed.

Lemma trial_row_readable (t : trial) :
  (exists o, trial_row int_of_str t = Ok o) <-> readable int_of_str t = true.
Proof.
  unfold trial_row, readable, measured_with_response.
  destruct (trial_type t) as [| |ty]; simpl.
  - split; [intros (o & H); discriminate | discriminate].
  - split; eauto.
  - destruct (String.eqb ty "rok"); simpl; [|split; eauto].
    destruct (no_reaction_time t); simpl; [split; eauto|].
    destruct (number_of_oobs t) as [| |[|dl [|dr l]]]; simpl;
      try (split; [intros (o & H); discriminate | discriminate]).
    unfold int_accepts.
    destruct (key_press t); simpl;
      try (split; [intros (o & H); discriminate | discriminate]);
      destruct (py_int int_of_str dl); simpl;
      destruct (py_int int_of_str dr); simpl;
      split; eauto; try discriminate; intros (o & H); discriminate.
Qed.

Lemma py_int_exn (v : value) (e : exn) :
  py_int int_of_str v = Raise e ->
  e = TypeError \/ e = ValueError \/ e = OverflowError.
Proof.
  destruct v as [|b|z|[q|n|]|s]; simpl; intros H; inversion H; auto.
  destruct (int_of_str s); inversion H; auto.
Qed.

Lemma trial_row_exn (t : trial) (e : exn) :
  trial_row int_of_str t = Raise e ->
  e = KeyError \/ e = TypeError \/ e = IndexError \/
  e = ValueError \/ e = OverflowError.
Proof.
  unfold trial_row.
  destruct (trial_type t) as [| |ty]; simpl;
    try (intros H; inversion H; auto; fail).
  destruct (negb (String.eqb ty "rok")); [discriminate|].
  destruct (no_reaction_time t); [discriminate|].
  destruct (number_of_oobs t) as [| |[|dl [|dr l]]]; simpl;
    try (intros H; inversion H; auto; fail).
  assert (forall choice : entry string,
            result_bind (py_int int_of_str dl) (fun il =>
            result_bind (py_int int_of_str dr) (fun ir =>
            Ok (Some (mkObservation il ir (compute_accuracy dl dr choice)))))
            = Raise e ->
            e = KeyError \/ e = TypeError \/ e = IndexError \/
            e = ValueError \/ e = OverflowError) as Hint.
  { intros choice.
    destruct (py_int int_of_str dl) as [il|e1] eqn:El; simpl.
    - destruct (py_int int_of_str dr) as [ir|e2] eqn:Er; simpl;
        [discriminate|].
      intros H. inversion H; subst.
      apply py_int_exn in Er. tauto.
    - intros H. inversion H; subst.
      apply py_int_exn in El. tauto. }
  destruct (key_press t); simpl; [intros H; inversion H; auto | | ];
    apply Hint.
Qed.

Lemma trial_rows_readable (ts : list trial) :
  (exists tbl, trial_rows int_of_str ts = Ok tbl) <->
  forallb (readable int_of_str) ts = true.
Proof.
  induction ts as [|t ts IH]; simpl.
  - split; eauto.
  - rewrite andb_true_iff, <- IH, <- trial_row_readable. split.
    + intros (tbl & H).
      destruct (trial_row int_of_str t) as [o|e]; simpl in H; [|discriminate].
      destruct (trial_rows int_of_str ts) as [rows|e]; simpl in H;
        [|discriminate].
      eauto.
    + intros [(o & ->) (rows & ->)]. simpl. eauto.
Qed.

Lemma trial_rows_Raise (ts : list trial) (e : exn) :
  trial_rows int_of_str ts = Raise e ->
  exists t, In t ts /\ trial_row int_of_str t = Raise e.
Proof.
  induction ts as [|t ts IH]; simpl; [discriminate|].
  destruct (trial_row int_of_str t) as [o|e'] eqn:Ht; simpl.
  - destruct (trial_rows int_of_str ts) as [rows|e'']; simpl; [discriminate|].
    intros H. inversion H; subst.
    destruct (IH eq_refl) as (t' & Hin & Ht'). eauto.
  - intros H. inversion H; subst. eauto.
Qed.

(** X1: on trial lists whose events are dictionaries with a string or
    [None] as trial type and pressed key and, where present, a list of
    scalars as [number_of_oobs], the parser returns a table exactly when
    every event has a [trial_type] key and every ['rok'] event with a
    reaction time has at least two dot counts, the first two accepted by
    [int], and a [key_press] key. *)
Theorem parser_returns_iff_readable (ts : list trial) :
  (exists tbl, trial_list_to_experiment_data int_of_str ts = Ok tbl) <->
  forallb (readable int_of_str) ts = true.
Proof.
  rewrite parser_rows. apply trial_rows_readable.
Qed.

(** X2: when the parser raises, the exception is the one its loop body
    raises on one of the events, never one of the data frame constructor,
    whose three columns always have one length; it is [KeyError] (a missing
    key), [TypeError] ([number_of_oobs] or a dot count is [None]),
    [IndexError] (fewer than two dot counts), [ValueError] ([int] of a string
    that is no integer literal, or of NaN) or [OverflowError] ([int] of an
    infinite float). *)
Theorem parser_exceptions (ts : list trial) (e : exn) :
  trial_list_to_experiment_data int_of_str ts = Raise e ->
  (exists t, In t ts /\ parse_trial int_of_str empty_results t = Raise e) /\
  (e = KeyError \/ e = TypeError \/ e = IndexError \/
   e = ValueError \/ e = OverflowError).
Proof.
  rewrite parser_rows. intros H.
  apply trial_rows_Raise in H. destruct H as (t & Hin & Ht).
  split.
  - exists t. split; [assumption|].
    change empty_results with (columns_of []).
    rewrite parse_trial_row, Ht. reflexivity.
  - eapply trial_row_exn. eassumption.
Qed.

Lemma trial_rows_app (ts1 ts2 : list trial) :
  trial_rows int_of_str (ts1 ++ ts2) =
  result_bind (trial_rows int_of_str ts1) (fun t1 =>
  result_bind (trial_rows int_of_str ts2) (fun t2 => Ok (t1 ++ t2))).
Proof.
  induction ts1 as [|t ts1 IH]; simpl.
  - destruct (trial_rows int_of_str ts2); reflexivity.
  - destruct (trial_row int_of_str t) as [o|e]; simpl; [|reflexivity].
    rewrite IH.
    destruct (trial_rows int_of_str ts1) as [t1|e]; simpl; [|reflexivity].
    destruct (trial_rows int_of_str ts2) as [t2|e]; simpl; [|reflexivity].
    destruct o; reflexivity.
Qed.

(** X3: parsing two trial lists one after the other is parsing each and
    concatenating the tables; the first list's exception wins. *)
Theorem parser_app (ts1 ts2 : list trial) :
  trial_list_to_experiment_data int_of_str (ts1 ++ ts2) =
  result_bind (trial_list_to_experiment_data int_of_str ts1) (fun t1 =>
  result_bind (trial_list_to_experiment_data int_of_str ts2) (fun t2 =>
  Ok (t1 ++ t2))).
Proof.
  rewrite !parser_rows. apply trial_rows_app.
Qed.

(** X4: if every event has a [trial_type] key, the events that are not
    answered dot displays have no influence: the parser's result, table or
    exception, is the one it gives on the answered dot displays alone. *)
Theorem parser_ignores_other_events (ts : list trial) :
  Forall (fun t => trial_type t <> Absent) ts ->
  trial_list_to_experiment_data int_of_str
                                (filter measured_with_response ts) =
  trial_list_to_experiment_data int_of_str ts.
Proof.
  rewrite !parser_rows.
  induction 1 as [|t ts Hty _ IH]; simpl; [reflexivity|].
  destruct (measured_with_response t) eqn:Hm; simpl.
  - rewrite IH. reflexivity.
  - rewrite IH.
    assert (trial_row int_of_str t = Ok None) as ->.
    { unfold measured_with_response in Hm. unfold trial_row.
      destruct (trial_type t) as [| |ty]; simpl in *;
        [congruence | reflexivity |].
      destruct (String.eqb ty "rok"); simpl in *; [|reflexivity].
      rewrite negb_false_iff in Hm. rewrite Hm. reflexivity. }
    simpl. destruct (trial_rows int_of_str ts); reflexivity.
Qed.

End ParserEvents.

Lemma parser_exceptions_witness :
  (exists t,
     In t [Lab.instruction_event; Lab.raw_event (VStr "a") (VInt 2)] /\
     parse_trial Lab.decimal empty_results t = Raise ValueError) /\
  (ValueError = KeyError \/ ValueError = TypeError \/
   ValueError = IndexError \/ ValueError = ValueError \/
   ValueError = OverflowError).
Proof.
  exact (parser_exceptions Lab.decimal
           [Lab.instruction_event; Lab.raw_event (VStr "a") (VInt 2)]
           ValueError eq_refl).
Defined.

Lemma parser_ignores_other_events_witness :
  trial_list_to_experiment_data Lab.decimal
    (filter measured_with_response
            [Lab.instruction_event; Lab.answered_event 3 4 "y";
             Lab.timed_out_event 4 5]) =
  trial_list_to_experiment_data Lab.decimal
    [Lab.instruction_event; Lab.answered_event 3 4 "y";
     Lab.timed_out_event 4 5].
Proof.
  apply parser_ignores_other_events.
  repeat constructor; discriminate.
Defined.

(** ** The execution stage *)

Section Execution.

Context {World Model : Type}.
Variable C : collaborators World Model.

Lemma preprocess_trial_rows (data_raw : list string) (tss : list (list trial)) :
  Forall2 (fun item ts => json_loads_trials C item = Ok ts) data_raw tss ->
  forall acc,
    preprocess C acc data_raw =
    result_bind (trial_rows (builtin_int C) (List.concat tss))
                (fun t => Ok (acc ++ t)).
Proof.
  induction 1 as [|item ts data_raw tss Hts _ IH]; simpl; intros acc.
  - rewrite app_nil_r. reflexivity.
  - rewrite Hts. simpl. rewrite parser_rows, trial_rows_app.
    destruct (trial_rows (builtin_int C) ts) as [t1|e]; simpl;
      [|reflexivity].
    rewrite IH.
    destruct (trial_rows (builtin_int C) (List.concat tss)) as [t2|e];
      simpl; [|reflexivity].
    rewrite app_assoc. reflexivity.
Qed.

Lemma preprocess_decodes (data_raw : list string) :
  forall acc tbl,
    preprocess C acc data_raw = Ok tbl ->
    exists tss,
      Forall2 (fun item ts => json_loads_trials C item = Ok ts) data_raw tss.
Proof.
  induction data_raw as [|item rest IH]; simpl; intros acc tbl H.
  - exists []. constructor.
  - apply result_bind_Ok in H. destruct H as (ts & Hts & H).
    apply result_bind_Ok in H. destruct H as (df & _ & H).
    apply IH in H. destruct H as (tss & Htss).
    exists (ts :: tss). constructor; assumption.
Qed.

(** X5: when every blob decodes, parsing the blobs one by one and
    concatenating the tables, as the execution stage does, gives what one
    pass of the parser over all the trials gives, table or exception. *)
Theorem preprocess_is_one_parse (data_raw : list string)
    (tss : list (list trial)) (acc : list observation) :
  Forall2 (fun item ts => json_loads_trials C item = Ok ts) data_raw tss ->
  preprocess C acc data_raw =
  result_bind (trial_list_to_experiment_data (builtin_int C)
                                             (List.concat tss))
              (fun t => Ok (acc ++ t)).
Proof.
  intros H. rewrite parser_rows. apply preprocess_trial_rows. assumption.
Qed.

Lemma mapM_length {A B} (f : A -> M World B) (l : list A) :
  forall w res w',
    mapM f l w = Ok (res, w') -> List.length res = List.length l.
Proof.
  induction l as [|x l IH]; simpl; intros w res w' H.
  - apply ret_Ok in H. destruct H; subst. reflexivity.
  - apply bind_Ok in H. destruct H as (y & w1 & _ & H).
    apply bind_Ok in H. destruct H as (ys & w2 & Hys & H).
    apply ret_Ok in H. destruct H; subst. simpl.
    f_equal. eapply IH. eassumption.
Qed.

Lemma map_fst_combine {A B} (l : list A) :
  forall l' : list B,
    List.length l' = List.length l -> map fst (combine l l') = l.
Proof.
  induction l as [|x l IH]; intros [|y l'] Hlen; simpl in *;
    try discriminate; [reflexivity|].
  f_equal. apply IH. lia.
Qed.

Lemma runner_on_state_Ok (s s' : State Model) (w w' : World) :
  runner_on_state C s w = Ok (s', w') ->
  exists pool codes w0 data_raw new,
    conditions s = Some pool /\
    mapM (fun c =>
            timeline <- trial_sequence C (dots_left c) (dots_right c)
                                       num_trials ;;
            stimulus_sequence C timeline) pool w = Ok (codes, w0) /\
    experiment_runner C (combine pool codes) w0 = Ok (data_raw, w') /\
    preprocess C [] data_raw = Ok new /\
    s' = mkState (conditions s)
                 (Some (rows_of (experiment_data s) ++ new)) (models s).
Proof.
  intros H. unfold runner_on_state in H.
  apply on_state_Ok in H. destruct H as (d & Hd & ->).
  unfold runner in Hd. destruct (conditions s) as [pool|] eqn:Hc.
  - apply bind_Ok in Hd. destruct Hd as (codes & w0 & Hcodes & Hd).
    apply bind_Ok in Hd. destruct Hd as (data_raw & w1 & Hraw & Hd).
    apply bind_Ok in Hd. destruct Hd as (new & w2 & Hnew & Hd).
    apply lift_Ok in Hnew. destruct Hnew as [Hnew ->].
    apply ret_Ok in Hd. destruct Hd as [-> ->].
    exists pool, codes, w0, data_raw, new.
    repeat split; try assumption.
    unfold merge. simpl. rewrite Hc.
    destruct (experiment_data s); reflexivity.
  - apply lift_Ok in Hd. destruct Hd. discriminate.
Qed.

(** X6: a completed execution stage had a condition pool, compiled one
    experiment per pool row in pool order, submitted the pool rows with their
    experiments in a single call, and touched nothing but the observation
    table, to which it appended what the returned blobs parsed to; the number
    of blobs is not compared with the number of rows. *)
Theorem execution_stage_request (s s' : State Model) (w w' : World) :
  runner_on_state C s w = Ok (s', w') ->
  exists pool codes w0 data_raw new,
    conditions s = Some pool /\
    mapM (fun c =>
            timeline <- trial_sequence C (dots_left c) (dots_right c)
                                       num_trials ;;
            stimulus_sequence C timeline) pool w = Ok (codes, w0) /\
    List.length codes = List.length pool /\
    map fst (combine pool codes) = pool /\
    experiment_runner C (combine pool codes) w0 = Ok (data_raw, w') /\
    preprocess C [] data_raw = Ok new /\
    conditions s' = conditions s /\
    models s' = models s /\
    experiment_data s' = Some (rows_of (experiment_data s) ++ new).
Proof.
  intros H. apply runner_on_state_Ok in H.
  destruct H as (pool & codes & w0 & data_raw & new & Hc & Hm & Hr & Hp & ->).
  pose proof (mapM_length _ _ _ _ _ Hm) as Hlen.
  exists pool, codes, w0, data_raw, new. simpl.
  repeat split; try assumption.
  apply map_fst_combine. assumption.
Qed.

(** X7: a completed execution stage decoded every returned blob, found
    every event readable, and added exactly as many rows as there are
    answered dot displays in all the blobs together. *)
Theorem execution_stage_row_count (s s' : State Model) (w w' : World) :
  runner_on_state C s w = Ok (s', w') ->
  exists requested w0 data_raw tss,
    experiment_runner C requested w0 = Ok (data_raw, w') /\
    Forall2 (fun item ts => json_loads_trials C item = Ok ts) data_raw tss /\
    forallb (readable (builtin_int C)) (List.concat tss) = true /\
    List.length (rows_of (experiment_data s')) =
    (List.length (rows_of (experiment_data s)) +
     List.length (filter measured_with_response (List.concat tss)))%nat.
Proof.
  intros H. apply runner_on_state_Ok in H.
  destruct H as (pool & codes & w0 & data_raw & new & Hc & Hm & Hr & Hp & ->).
  destruct (preprocess_decodes data_raw [] new Hp) as (tss & Htss).
  rewrite (preprocess_trial_rows data_raw tss Htss) in Hp.
  destruct (trial_rows (builtin_int C) (List.concat tss)) as [tbl|e]
    eqn:Htbl; simpl in Hp; [|discriminate].
  inversion Hp; subst new.
  exists (combine pool codes), w0, data_raw, tss.
  split; [assumption|]. split; [assumption|]. split.
  - apply trial_rows_readable. eauto.
  - simpl. rewrite length_app. f_equal.
    rewrite <- parser_rows in Htbl. apply parser_sound in Htbl.
    symmetry. eapply Forall2_length. eassumption.
Qed.

End Execution.

Lemma preprocess_is_one_parse_witness :
  preprocess (Lab.lab Lab.first_rows) [] ["answered"; "silent"; "answered"] =
  result_bind
    (trial_list_to_experiment_data Lab.decimal
       (List.concat
          [ [Lab.instruction_event; Lab.answered_event 1 2 "n";
             Lab.timed_out_event 2 1];
            [Lab.instruction_event; Lab.timed_out_event 1 2;
             Lab.timed_out_event 2 1];
            [Lab.instruction_event; Lab.answered_event 1 2 "n";
             Lab.timed_out_event 2 1] ]))
    (fun t => Ok ([] ++ t)).
Proof.
  apply (preprocess_is_one_parse (Lab.lab Lab.first_rows)).
  repeat constructor.
Defined.

Lemma execution_stage_request_witness :
  exists pool codes w0 data_raw new,
    conditions Lab.bootstrapped = Some pool /\
    mapM (fun c =>
            timeline <- trial_sequence (Lab.lab Lab.first_rows)
                          (dots_left c) (dots_right c) num_trials ;;
            stimulus_sequence (Lab.lab Lab.first_rows) timeline)
         pool [["answered"]] = Ok (codes, w0) /\
    List.length codes = List.length pool /\
    map fst (combine pool codes) = pool /\
    experiment_runner (Lab.lab Lab.first_rows) (combine pool codes) w0
      = Ok (data_raw, []) /\
    preprocess (Lab.lab Lab.first_rows) [] data_raw = Ok new /\
    conditions Lab.executed = conditions Lab.bootstrapped /\
    models Lab.executed = models Lab.bootstrapped /\
    experiment_data Lab.executed
      = Some (rows_of (experiment_data Lab.bootstrapped) ++ new).
Proof.
  apply (execution_stage_request (Lab.lab Lab.first_rows) Lab.bootstrapped
                                 Lab.executed [["answered"]] []).
  reflexivity.
Defined.

Lemma execution_stage_row_count_witness :
  exists requested w0 data_raw tss,
    experiment_runner (Lab.lab Lab.first_rows) requested w0
      = Ok (data_raw, []) /\
    Forall2 (fun item ts =>
               json_loads_trials (Lab.lab Lab.first_rows) item = Ok ts)
            data_raw tss /\
    forallb (readable Lab.decimal) (List.concat tss) = true /\
    List.length (rows_of (experiment_data Lab.executed)) =
    (List.length (rows_of (experiment_data Lab.bootstrapped)) +
     List.length (filter measured_with_response (List.concat tss)))%nat.
Proof.
  apply (execution_stage_row_count (Lab.lab Lab.first_rows) Lab.bootstrapped
                                   Lab.executed [["answered"]] []).
  reflexivity.
Defined.

(** ** Reading the model history *)

Lemma plot_models_last_three {A} (p : list A) (a b c : A) :
  plot_models (p ++ [a; b; c]) = Ok (a, b, c).
Proof.
  unfold plot_models.
  rewrite !index_from_end_app by (simpl; lia). reflexivity.
Qed.

Lemma split_last_three {A} (h : list A) :
  (3 <= List.length h)%nat ->
  exists a b c,
    h = firstn (List.length h - 3) h ++ [a; b; c] /\
    skipn (List.length h - 3) h = [a; b; c].
Proof.
  intros Hlen.
  pose proof (firstn_skipn (List.length h - 3) h) as Hsplit.
  pose proof (length_skipn (List.length h - 3) h) as Hskip.
  destruct (skipn (List.length h - 3) h) as [|a [|b [|c [|d l]]]] eqn:E;
    simpl in Hskip; try lia.
  exists a, b, c. split; [symmetry; exact Hsplit | reflexivity].
Qed.

(** X8: line 205 succeeds exactly on a history of at least three entries,
    and then yields its last three entries in reverse; on a shorter history,
    the empty one included, it raises [IndexError]. *)
Theorem models_to_compare_bounds {A} (history : list A) :
  models_to_compare history =
  if (3 <=? List.length history)%nat
  then Ok (rev (skipn (List.length history - 3) history))
  else Raise IndexError.
Proof.
  destruct (Nat.leb_spec 3 (List.length history)) as [Hlen|Hlen].
  - destruct (split_last_three history Hlen) as (a & b & c & Hh & Hs).
    rewrite Hs. rewrite Hh at 1.
    apply models_to_compare_last_three.
  - destruct history as [|a [|b [|c l]]]; simpl in Hlen; try lia;
      reflexivity.
Qed.

Section Reporting.

Context {World Model : Type}.
Variable C : collaborators World Model.

Lemma length_concat_triples (fits : list (list Model)) :
  Forall (fun out => List.length out = 3%nat) fits ->
  List.length (List.concat fits) = (3 * List.length fits)%nat.
Proof.
  induction 1 as [|out fits Hout _ IH]; simpl; [reflexivity|].
  rewrite length_app, IH, Hout. lia.
Qed.

(** X9: after a completed workflow of at least one cycle the plot code at
    line 227 reads, as Nuts, BMS and LogisticRegression, the three handles
    the last fit stage returned for these families; they are the last three
    of [3 * cycles] entries, and the same three that line 205 yields in
    reverse on this history. *)
Theorem plot_reads_latest_fit (n : nat) (s : State Model) (w w' : World) :
  workflow_for C (S n) w = Ok (s, w') ->
  exists earlier_fits m_nuts m_bms m_lr,
    run C (earlier_fits ++ [[m_nuts; m_bms; m_lr]]) s w' /\
    List.length earlier_fits = n /\
    models s = List.concat earlier_fits ++ [m_nuts; m_bms; m_lr] /\
    List.length (models s) = (3 * S n)%nat /\
    plot_models (models s) = Ok (m_nuts, m_bms, m_lr) /\
    models_to_compare (models s) = Ok [m_lr; m_bms; m_nuts].
Proof.
  intros H.
  destruct (workflow_run C (S n) s w w' H) as (fits & Hlen & Hrun).
  destruct (run_invariant C fits s w' Hrun) as (Hm & Htriples & _).
  destruct (exists_last (l := fits)) as (earlier & last & ->).
  { intros ->. discriminate. }
  rewrite length_app in Hlen. simpl in Hlen.
  pose proof Htriples as Hall.
  apply Forall_app in Htriples. destruct Htriples as [_ Hlast].
  inversion Hlast as [|? ? Hl _]; subst.
  destruct last as [|a [|b [|c [|? ?]]]]; try discriminate.
  exists earlier, a, b, c.
  assert (models s = List.concat earlier ++ [a; b; c]) as Hm'.
  { rewrite Hm, concat_app. reflexivity. }
  split; [assumption|]. split; [lia|]. split; [assumption|]. split.
  - rewrite Hm, (length_concat_triples _ Hall), length_app. simpl. lia.
  - rewrite Hm'. split.
    + apply plot_models_last_three.
    + apply models_to_compare_last_three.
Qed.

Lemma run_lr_entries (fits : list (list Model)) (s : State Model) (w : World) :
  run C fits s w ->
  Forall (fun out => exists a b, out = [a; b; lr_theorist C]) fits.
Proof.
  induction 1 as [w | fits s w c s' w' Hrun IH Hstep
                    | fits s w s' w' out Hrun IH Hne Hout Hstep].
  - constructor.
  - assumption.
  - apply Forall_app. split; [assumption|]. constructor; [|constructor].
    apply fit_families_shape in Hout.
    destruct Hout as (mn & mb & ml & w1 & w2 & _ & _ & Hl & ->).
    unfold LogisticRegressor_fit in Hl.
    apply bind_Ok in Hl. destruct Hl as (u & w3 & _ & Hl).
    apply ret_Ok in Hl. destruct Hl as [-> _]. eauto.
Qed.

Lemma nth_error_concat_triples (fits : list (list Model)) (m0 : Model) :
  Forall (fun out => exists a b, out = [a; b; m0]) fits ->
  forall i m,
    nth_error (List.concat fits) (3 * i + 2) = Some m -> m = m0.
Proof.
  induction 1 as [|out fits (a & b & ->) _ IH]; intros i m H.
  - remember (3 * i + 2)%nat as k. destruct k; discriminate.
  - destruct i as [|i].
    + simpl in H. congruence.
    + replace (3 * S i + 2)%nat with (S (S (S (3 * i + 2)))) in H by lia.
      remember (3 * i + 2)%nat as k. simpl in H. subst k.
      eapply IH. eassumption.
Qed.

(** X10: the wrapper's [fit] returns the wrapper itself, so in every run
    each LogisticRegression entry of the model history (the third of every
    triple) is the one handle [lr_theorist]: the history holds the same
    estimator object once per fit stage, not one model per cycle. *)
Theorem logistic_entries_are_one_object (fits : list (list Model))
    (s : State Model) (w : World) (i : nat) (m : Model) :
  run C fits s w ->
  nth_error (models s) (3 * i + 2) = Some m ->
  m = lr_theorist C.
Proof.
  intros Hrun Hm.
  destruct (run_invariant C fits s w Hrun) as (Hmodels & _ & _).
  rewrite Hmodels in Hm.
  eapply nth_error_concat_triples; [|eassumption].
  eapply run_lr_entries. eassumption.
Qed.

End Reporting.

Lemma plot_reads_latest_fit_witness :
  exists earlier_fits m_nuts m_bms m_lr,
    run (Lab.lab Lab.first_rows)
        (earlier_fits ++ [[m_nuts; m_bms; m_lr]]) Lab.fitted [] /\
    List.length earlier_fits = 0%nat /\
    models Lab.fitted = List.concat earlier_fits ++ [m_nuts; m_bms; m_lr] /\
    List.length (models Lab.fitted) = (3 * 1)%nat /\
    plot_models (models Lab.fitted) = Ok (m_nuts, m_bms, m_lr) /\
    models_to_compare (models Lab.fitted) = Ok [m_lr; m_bms; m_nuts].
Proof.
  apply (plot_reads_latest_fit (Lab.lab Lab.first_rows) 0 Lab.fitted
                               [["answered"]] []).
  vm_compute. reflexivity.
Defined.

Lemma logistic_entries_are_one_object_witness :
  Lab.LogisticRegression = lr_theorist (Lab.lab Lab.first_rows).
Proof.
  apply (logistic_entries_are_one_object
           (Lab.lab Lab.first_rows)
           [[Lab.Nuts; Lab.BMS; Lab.LogisticRegression]] Lab.fitted [] 0
           Lab.LogisticRegression lab_first_cycle_is_run).
  reflexivity.
Defined.

(** ** The loop as a whole *)

Section WholeLoop.

Context {World Model : Type}.
Variable C : collaborators World Model.

Lemma none_or_empty_true_rows {A} (t : option (list A)) :
  none_or_empty t = true <-> rows_of t = [].
Proof.
  destruct t as [[|x l]|]; simpl; split; intros H; congruence.
Qed.

(** X11: whatever the collaborators are, if the bootstrap and the first
    execution stage complete and the observation table is still empty, the
    workflow with at least one cycle raises [IndexError]: the fit stage does
    nothing and line 205 indexes an empty model history. *)
Theorem workflow_raises_on_empty_first_table (n : nat)
    (s0 s1 : State Model) (w w0 w1 : World) :
  initialize_state C initial_state allowed_conditions
                   num_conditions_per_cycle w = Ok (s0, w0) ->
  runner_on_state C s0 w0 = Ok (s1, w1) ->
  rows_of (experiment_data s1) = [] ->
  workflow_for C (S n) w = Raise IndexError.
Proof.
  intros Hinit Hexec Hempty.
  assert (models s1 = []) as Hmodels.
  { destruct (runner_on_state_appends C s0 s1 w0 w1 Hexec)
      as (new & _ & Hm & _).
    destruct (initialize_state_pool C _ _ _ _ _ _ Hinit) as (pool & _ & Hs0).
    rewrite Hm, Hs0. reflexivity. }
  apply none_or_empty_true_rows in Hempty.
  unfold workflow_for, bind. rewrite Hinit. simpl.
  unfold bind at 1. unfold cycle, bind at 1. rewrite Hexec.
  unfold bind at 1. rewrite (theorist_on_state_empty C s1 w1 Hempty).
  unfold bind, lift. rewrite Hmodels. reflexivity.
Qed.

(** X12: a completed workflow of [n] cycles ends with a condition pool in
    place and a model history of [3 * n] entries, and if [n >= 1] with a
    non-empty observation table. *)
Theorem completed_workflow_shape (n : nat) (s : State Model) (w w' : World) :
  workflow_for C n w = Ok (s, w') ->
  (exists pool, conditions s = Some pool) /\
  List.length (models s) = (3 * n)%nat /\
  ((1 <= n)%nat -> rows_of (experiment_data s) <> []).
Proof.
  intros H.
  destruct (workflow_run C n s w w' H) as (fits & Hlen & Hrun).
  destruct (run_invariant C fits s w' Hrun) as (Hm & Htriples & Hdata).
  split; [|split].
  - destruct n as [|n].
    + unfold workflow_for in H. apply bind_Ok in H.
      destruct H as (s0 & w0 & Hinit & H). apply ret_Ok in H.
      destruct H; subst.
      apply initialize_state_pool in Hinit.
      destruct Hinit as (pool & _ & ->). simpl. eauto.
    + apply workflow_for_snoc in H. destruct H as (sn & wn & _ & Hc).
      apply cycle_Ok in Hc.
      destruct Hc as (s1 & w1 & s2 & w2 & tc & _ & _ & _ & Hsel).
      apply experimentalist_on_state_pool in Hsel.
      destruct Hsel as (pool & _ & ->). simpl. eauto.
  - rewrite Hm, (length_concat_triples fits Htriples), Hlen. reflexivity.
  - intros Hn. apply none_or_empty_rows. apply Hdata.
    intros ->. simpl in Hlen. lia.
Qed.

(** X14: a completed stage changes only its own field: only the fit stage
    changes the model history, only the execution stage changes the
    observation table, and only the bootstrap and selection stages change
    the condition pool. *)
Theorem stage_changes_only_its_field (st : stage Model)
    (s s' : State Model) (w w' : World) :
  run_stage C st s w = Ok (s', w') ->
  (st <> Fit -> models s' = models s) /\
  (st <> Other Execute -> experiment_data s' = experiment_data s) /\
  (st = Fit \/ st = Other Execute -> conditions s' = conditions s).
Proof.
  destruct st as [[allowed k| |allowed to_compare k]|]; simpl; intros H.
  - apply initialize_state_pool in H. destruct H as (? & _ & ->). simpl.
    repeat split; auto. intros [E|E]; discriminate.
  - apply runner_on_state_appends in H. destruct H as (new & _ & Hm & Hc).
    repeat split; auto. congruence.
  - apply experimentalist_on_state_pool in H. destruct H as (? & _ & ->).
    simpl. repeat split; auto. intros [E|E]; discriminate.
  - apply theorist_on_state_keeps_data in H. destruct H as [Hd Hc].
    repeat split; auto. congruence.
Qed.

(** X15: when the Nuts sampler is the one bound at import time, the list
    of models handed to the selection stage has no effect on the stage:
    any two lists give the same result. *)
Theorem nuts_selection_ignores_models
    (nuts_sample : list condition -> list condition -> nat -> list string ->
                   M World (list condition))
    (s : State Model) (allowed : list condition)
    (models1 models2 : list Model) (k : nat) (w : World) :
  condition_sampler C = NutsSample nuts_sample ->
  experimentalist_on_state C s allowed models1 k w =
  experimentalist_on_state C s allowed models2 k w.
Proof.
  intros Hb.
  unfold experimentalist_on_state, on_state, experimentalist, pick_conditions.
  rewrite Hb. reflexivity.
Qed.

End WholeLoop.

Lemma workflow_raises_on_empty_first_table_witness :
  workflow_for (Lab.lab Lab.first_rows) 2 [["silent"]] = Raise IndexError.
Proof.
  apply (workflow_raises_on_empty_first_table
           (Lab.lab Lab.first_rows) 1 Lab.bootstrapped Lab.executed_empty
           [["silent"]] [["silent"]] []).
  - vm_compute. reflexivity.
  - reflexivity.
  - reflexivity.
Defined.

Lemma completed_workflow_shape_witness :
  exists s,
    workflow (Lab.lab Lab.first_rows) Lab.two_then_one = Ok (s, []) /\
    List.length (models s) = 6%nat /\
    rows_of (experiment_data s) <> [].
Proof.
  exists (mkState (Some Lab.pool)
                  (Some (Lab.observed ++ Lab.observed ++ Lab.observed))
                  [Lab.Nuts; Lab.BMS; Lab.LogisticRegression;
                   Lab.Nuts; Lab.BMS; Lab.LogisticRegression]).
  assert (workflow (Lab.lab Lab.first_rows) Lab.two_then_one
          = Ok (mkState (Some Lab.pool)
                        (Some (Lab.observed ++ Lab.observed ++ Lab.observed))
                        [Lab.Nuts; Lab.BMS; Lab.LogisticRegression;
                         Lab.Nuts; Lab.BMS; Lab.LogisticRegression], []))
    as Hrun by (vm_compute; reflexivity).
  split; [exact Hrun|].
  destruct (completed_workflow_shape (Lab.lab Lab.first_rows) 2 _ _ _ Hrun)
    as (_ & Hlen & Hdata).
  split; [exact Hlen|]. apply Hdata. lia.
Defined.

Lemma stage_changes_only_its_field_witness :
  experiment_data Lab.fitted = experiment_data Lab.executed /\
  conditions Lab.fitted = conditions Lab.executed.
Proof.
  destruct (stage_changes_only_its_field
              (Lab.lab Lab.first_rows) Fit Lab.executed Lab.fitted [] []
              eq_refl) as (_ & Hd & Hc).
  split; [apply Hd; discriminate | apply Hc; left; reflexivity].
Defined.

Lemma nuts_selection_ignores_models_witness :
  experimentalist_on_state (Lab.lab Lab.novel_rows) Lab.fitted
                           allowed_conditions
                           [Lab.LogisticRegression; Lab.BMS; Lab.Nuts]
                           num_conditions_per_cycle [] =
  experimentalist_on_state (Lab.lab Lab.novel_rows) Lab.fitted
                           allowed_conditions [] num_conditions_per_cycle [].
Proof.
  eapply nuts_selection_ignores_models. reflexivity.
Defined.

(** ** The rows of the design space *)

Lemma NoDup_pair_with (x : Z) (b : list Z) :
  NoDup b -> NoDup (map (fun y => (x, y)) b).
Proof.
  induction 1 as [|y b Hy _ IH]; simpl; constructor; [|assumption].
  rewrite in_map_iff. intros (y' & E & Hin). inversion E; subst.
  contradiction.
Qed.

Lemma length_filter_differs (x : Z) (b : list Z) :
  NoDup b ->
  In x b ->
  List.length (filter (fun y => negb (Z.eqb x y)) b)
    = (List.length b - 1)%nat.
Proof.
  induction 1 as [|y b Hy Hb IH]; simpl; intros Hin; [contradiction|].
  destruct (Z.eqb_spec x y) as [->|Hxy]; simpl.
  - rewrite Nat.sub_0_r. clear IH Hin.
    induction b as [|z b IHb]; simpl; [reflexivity|].
    destruct (Z.eqb_spec y z) as [->|Hyz]; simpl.
    + exfalso. apply Hy. left. reflexivity.
    + f_equal. apply IHb.
      * intros H. apply Hy. right. assumption.
      * inversion Hb. assumption.
  - destruct Hin as [E|Hin]; [congruence|].
    rewrite IH by assumption.
    destruct b; [contradiction|]. simpl. lia.
Qed.

Lemma length_design_space (a b : list Z) :
  List.length (design_space a b) =
  list_sum (map (fun x =>
                   List.length (filter (fun y => negb (Z.eqb x y)) b)) a).
Proof.
  unfold design_space, remove_equal_dots, grid_pool, dots_left, dots_right.
  induction a as [|x a IH]; simpl; [reflexivity|].
  rewrite filter_app, length_app. f_equal; [|exact IH].
  clear IH. induction b as [|y b IHb]; simpl; [reflexivity|].
  destruct (negb (Z.eqb x y)); simpl; rewrite IHb; reflexivity.
Qed.

Lemma list_sum_constant {A} (l : list A) (f : A -> nat) (k : nat) :
  (forall x, In x l -> f x = k) ->
  list_sum (map f l) = (List.length l * k)%nat.
Proof.
  induction l as [|x l IH]; simpl; intros H; [reflexivity|].
  rewrite H by auto. rewrite IH by auto. reflexivity.
Qed.

Lemma NoDup_linspace_1_100 : NoDup (linspace 1 100 100).
Proof.
  rewrite linspace_1_100.
  assert (forall l : list nat, NoDup l -> NoDup (map Z.of_nat l)) as Hmap.
  { induction 1 as [|n l Hn _ IH]; simpl; constructor; [|assumption].
    rewrite in_map_iff. intros (n' & E & Hin).
    apply Nat2Z.inj in E. subst. contradiction. }
  apply Hmap. apply seq_NoDup.
Qed.

(** X16: built from allowed-value lists without repetitions, the design
    space has no repeated row; its rows are exactly the pairs of allowed
    values that differ; and when both variables share one list of [n] values
    it has [n * (n - 1)] rows. *)
Theorem design_space_rows (a b : list Z) :
  NoDup a ->
  NoDup b ->
  NoDup (design_space a b) /\
  (forall l r, In (l, r) (design_space a b) <-> In l a /\ In r b /\ l <> r) /\
  (a = b ->
   List.length (design_space a b)
     = (List.length a * (List.length a - 1))%nat).
Proof.
  intros Ha Hb. split; [|split].
  - unfold design_space, remove_equal_dots. apply NoDup_filter.
    unfold grid_pool. clear -Ha Hb.
    induction Ha as [|x a Hx _ IH]; simpl; [constructor|].
    apply NoDup_app; [apply NoDup_pair_with; assumption | assumption |].
    intros [l r] H1 H2.
    apply in_map_iff in H1. destruct H1 as (y & E & _). inversion E; subst.
    apply in_flat_map in H2. destruct H2 as (x' & Hx' & H2).
    apply in_map_iff in H2. destruct H2 as (y' & E' & _).
    inversion E'; subst. contradiction.
  - intros l r. apply In_design_space.
  - intros <-. rewrite length_design_space.
    apply list_sum_constant. intros x Hx.
    apply length_filter_differs; assumption.
Qed.

Lemma design_space_rows_witness :
  NoDup allowed_conditions /\
  List.length allowed_conditions
    = (List.length (linspace 1 100 100)
       * (List.length (linspace 1 100 100) - 1))%nat.
Proof.
  destruct (design_space_rows (linspace 1 100 100) (linspace 1 100 100)
                              NoDup_linspace_1_100 NoDup_linspace_1_100)
    as (Hnodup & _ & Hlen).
  split; [exact Hnodup | exact (Hlen eq_refl)].
Defined.

(** ** The prediction grid *)

Lemma length_ravel_fst {A} (x y : list A) :
  List.length (ravel (fst (meshgrid x y)))
    = (List.length y * List.length x)%nat.
Proof.
  unfold ravel, meshgrid. simpl.
  induction y as [|y0 y IH]; simpl; [reflexivity|].
  rewrite length_app, IH. reflexivity.
Qed.

Lemma length_ravel_snd {A} (x y : list A) :
  List.length (ravel (snd (meshgrid x y)))
    = (List.length y * List.length x)%nat.
Proof.
  unfold ravel, meshgrid. simpl.
  induction y as [|y0 y IH]; simpl; [reflexivity|].
  rewrite length_app, length_map, IH. reflexivity.
Qed.

Lemma nth_error_lt {A} (l : list A) (n : nat) (a : A) :
  nth_error l n = Some a -> (n < List.length l)%nat.
Proof. intros H. apply nth_error_Some. congruence. Qed.

Lemma nth_error_ravel_fst {A} (x y : list A) (i j : nat) (xj yi : A) :
  nth_error y i = Some yi ->
  nth_error x j = Some xj ->
  nth_error (ravel (fst (meshgrid x y))) (i * List.length x + j) = Some xj.
Proof.
  unfold ravel, meshgrid. simpl. intros Hy Hx.
  pose proof (nth_error_lt _ _ _ Hx) as Hj.
  revert i Hy. induction y as [|y0 y IH]; intros [|i] Hy; simpl in *;
    try discriminate.
  - rewrite nth_error_app1 by assumption. assumption.
  - rewrite nth_error_app2 by lia.
    replace (List.length x + i * List.length x + j - List.length x)%nat
      with (i * List.length x + j)%nat by lia.
    apply IH. assumption.
Qed.

Lemma nth_error_ravel_snd {A} (x y : list A) (i j : nat) (xj yi : A) :
  nth_error y i = Some yi ->
  nth_error x j = Some xj ->
  nth_error (ravel (snd (meshgrid x y))) (i * List.length x + j) = Some yi.
Proof.
  unfold ravel, meshgrid. simpl. intros Hy Hx.
  pose proof (nth_error_lt _ _ _ Hx) as Hj.
  revert i Hy. induction y as [|y0 y IH]; intros [|i] Hy; simpl in *;
    try discriminate.
  - rewrite nth_error_app1 by (rewrite length_map; assumption).
    rewrite nth_error_map, Hx. simpl. congruence.
  - rewrite nth_error_app2 by (rewrite length_map; lia).
    rewrite length_map.
    replace (List.length x + i * List.length x + j - List.length x)%nat
      with (i * List.length x + j)%nat by lia.
    apply IH. assumption.
Qed.

Lemma nth_error_combine_Some {A B} (u : list A) :
  forall (v : list B) k a b,
    nth_error u k = Some a ->
    nth_error v k = Some b ->
    nth_error (combine u v) k = Some (a, b).
Proof.
  induction u as [|a0 u IH]; intros [|b0 v] [|k] a b Ha Hb; simpl in *;
    try discriminate.
  - congruence.
  - apply IH; assumption.
Qed.

Lemma nth_error_rows_of_length {A} (ncols nrows : nat) :
  forall (v : list A) i,
    (i < nrows)%nat ->
    nth_error (rows_of_length nrows ncols v) i
      = Some (firstn ncols (skipn (i * ncols) v)).
Proof.
  induction nrows as [|nrows IH]; intros v [|i] Hi; simpl; try lia.
  - reflexivity.
  - rewrite IH by lia. rewrite skipn_skipn.
    replace (i * ncols + ncols)%nat with (ncols + i * ncols)%nat by lia.
    reflexivity.
Qed.

Lemma shape_fst_meshgrid {A} (x y : list A) :
  fst (shape (fst (meshgrid x y))) = List.length y /\
  (fst (shape (fst (meshgrid x y))) * snd (shape (fst (meshgrid x y))))%nat
    = (List.length y * List.length x)%nat.
Proof.
  unfold shape, meshgrid. simpl. rewrite length_map.
  destruct y; simpl; auto.
Qed.

Lemma grid_points_Ok {A} (x y : list A) :
  grid_points x y
    = Ok (combine (ravel (fst (meshgrid x y))) (ravel (snd (meshgrid x y)))).
Proof.
  unfold grid_points, c_.
  rewrite length_ravel_fst, length_ravel_snd, Nat.eqb_refl. reflexivity.
Qed.

(** X17: when [_ensure_grid_pred] returns, the model returned one
    prediction per grid point, and the entry of the returned table in row
    [i], column [j] is the prediction for grid point number
    [i * len(iv1_range) + j]; that point is [(iv1_range[j], iv2_range[i])],
    the coordinates [iv1_grid[i][j]], [iv2_grid[i][j]] at which the surface
    plot draws the entry. *)
Theorem grid_prediction_alignment {World A B}
    (predict : list (A * A) -> M World (list B))
    (iv1_range iv2_range : list A) (iv_grid : list (A * A))
    (w w' : World) (pred_grid : list (list B))
    (i j : nat) (xj yi : A) :
  grid_points iv1_range iv2_range = Ok iv_grid ->
  _ensure_grid_pred predict iv_grid (fst (meshgrid iv1_range iv2_range)) w
    = Ok (pred_grid, w') ->
  nth_error iv2_range i = Some yi ->
  nth_error iv1_range j = Some xj ->
  exists pred row r1 r2,
    predict iv_grid w = Ok (pred, w') /\
    List.length pred = List.length iv_grid /\
    List.length iv_grid
      = (List.length iv2_range * List.length iv1_range)%nat /\
    nth_error iv_grid (i * List.length iv1_range + j) = Some (xj, yi) /\
    nth_error pred_grid i = Some row /\
    nth_error row j = nth_error pred (i * List.length iv1_range + j) /\
    nth_error (fst (meshgrid iv1_range iv2_range)) i = Some r1 /\
    nth_error r1 j = Some xj /\
    nth_error (snd (meshgrid iv1_range iv2_range)) i = Some r2 /\
    nth_error r2 j = Some yi.
Proof.
  intros Hpts Hrun Hy Hx.
  rewrite grid_points_Ok in Hpts. inversion Hpts; subst iv_grid; clear Hpts.
  pose proof (nth_error_lt _ _ _ Hy) as Hi.
  pose proof (nth_error_lt _ _ _ Hx) as Hj.
  unfold _ensure_grid_pred in Hrun.
  apply bind_Ok in Hrun. destruct Hrun as (pred & w1 & Hpred & Hrun).
  apply lift_Ok in Hrun. destruct Hrun as [Hshape ->].
  unfold reshape in Hshape.
  destruct (shape_fst_meshgrid iv1_range iv2_range) as [Hrows Hsize].
  rewrite Hsize, Hrows in Hshape.
  destruct (Nat.eqb_spec (List.length pred)
                         (List.length iv2_range * List.length iv1_range))
    as [Hlen|Hlen]; [|discriminate].
  assert (snd (shape (fst (meshgrid iv1_range iv2_range)))
          = List.length iv1_range) as Hcols.
  { unfold shape, meshgrid. simpl.
    destruct iv2_range; simpl in *; [lia | reflexivity]. }
  rewrite Hcols in Hshape.
  inversion Hshape; subst pred_grid; clear Hshape.
  exists pred,
         (firstn (List.length iv1_range)
                 (skipn (i * List.length iv1_range) pred)),
         iv1_range,
         (map (fun _ => yi) iv1_range).
  split; [assumption|].
  assert (List.length
            (combine (ravel (fst (meshgrid iv1_range iv2_range)))
                     (ravel (snd (meshgrid iv1_range iv2_range))))
          = (List.length iv2_range * List.length iv1_range)%nat) as Hgrid.
  { rewrite length_combine, length_ravel_fst, length_ravel_snd. lia. }
  split; [exact (eq_trans Hlen (eq_sym Hgrid))|].
  split; [exact Hgrid|]. split.
  { apply nth_error_combine_Some.
    - eapply nth_error_ravel_fst; eassumption.
    - eapply nth_error_ravel_snd; eassumption. }
  split; [apply nth_error_rows_of_length; assumption|]. split.
  { rewrite nth_error_firstn, nth_error_skipn.
    destruct (Nat.ltb_spec j (List.length iv1_range)); [reflexivity | lia]. }
  unfold meshgrid. cbn [fst snd].
  split; [rewrite nth_error_map, Hy; reflexivity|].
  split; [assumption|].
  split; [rewrite nth_error_map, Hy; reflexivity|].
  rewrite nth_error_map, Hx. reflexivity.
Qed.

Lemma grid_prediction_alignment_witness :
  exists pred row r1 r2,
    ret (map (fun p => fst p + 10 * snd p)
             [(1, 7); (2, 7); (3, 7); (1, 8); (2, 8); (3, 8)]) tt
      = Ok (pred, tt) /\
    List.length pred
      = List.length [(1, 7); (2, 7); (3, 7); (1, 8); (2, 8); (3, 8)] /\
    List.length [(1, 7); (2, 7); (3, 7); (1, 8); (2, 8); (3, 8)]
      = (List.length [7; 8] * List.length [1; 2; 3])%nat /\
    nth_error [(1, 7); (2, 7); (3, 7); (1, 8); (2, 8); (3, 8)]
              (1 * List.length [1; 2; 3] + 2) = Some (3, 8) /\
    nth_error [[71; 72; 73]; [81; 82; 83]] 1 = Some row /\
    nth_error row 2 = nth_error pred (1 * List.length [1; 2; 3] + 2) /\
    nth_error (fst (meshgrid [1; 2; 3] [7; 8])) 1 = Some r1 /\
    nth_error r1 2 = Some 3 /\
    nth_error (snd (meshgrid [1; 2; 3] [7; 8])) 1 = Some r2 /\
    nth_error r2 2 = Some 8.
Proof.
  apply (grid_prediction_alignment
           (fun pts => ret (map (fun p => fst p + 10 * snd p) pts))
           [1; 2; 3] [7; 8]
           [(1, 7); (2, 7); (3, 7); (1, 8); (2, 8); (3, 8)]
           tt tt [[71; 72; 73]; [81; 82; 83]] 1 2 3 8);
    reflexivity.
Defined.
